(** * Coupon engine of the coupon-api service (src/coupons.py)

    Shallow embedding of the discount evaluation in
    [get_applicable_coupons] and [apply_coupon].  Money (prices,
    subtotals, totals, percentages, thresholds) is modelled by exact
    rationals [Q] in place of Python floats; item counts are [Z].
    A MongoDB document field read with [d.get(k, default)] can be missing,
    hold [None], or hold a value: this is [pyopt]. *)

From Stdlib Require Import QArith ZArith List Ascii String Permutation Sorted Lia.
From stdpp Require Import base gmap strings.
Import ListNotations.

Open Scope Z_scope.

(** ** Python-level helpers *)

(** A document field: key absent, key bound to [None], or a value. *)
Inductive pyopt (A : Type) : Type :=
| Missing : pyopt A
| PyNone : pyopt A
| PyVal : A -> pyopt A.
Arguments Missing {A}.
Arguments PyNone {A}.
Arguments PyVal {A} _.

(** Strict float comparison [a < b]. *)
Definition qlt (a b : Q) : bool := negb (Qle_bool b a).

(** Python's [min(a, b)]: the first argument unless the second is
    strictly smaller. *)
Definition py_min (a b : Q) : Q := if qlt b a then b else a.

(** Rejections of [apply_coupon] (HTTP 400 details) and the Python
    exceptions the evaluation can raise. *)
Inductive reject : Type :=
| NotActive          (* "Coupon is not active or not yet valid" *)
| Expired            (* "Coupon has expired" *)
| TierIneligible     (* "This coupon is not valid for <tier> tier" *)
| EmptyCart          (* "Cart is empty" *)
| NotApplicable      (* "Coupon is not applicable to your cart" *)
| UsageExhausted     (* "You have used all your exclusive coupons ..." *)
| TypeError          (* comparison with None, [x in None], [dict <= 0] *)
| ZeroDivisionError  (* [n // 0] *)
| WriteError.        (* an [update_one] MongoDB refuses: pymongo raises *)

Inductive result (A : Type) : Type :=
| Ok : A -> result A
| Err : reject -> result A.
Arguments Ok {A} _.
Arguments Err {A} _.

Definition rbind {A B} (m : result A) (k : A -> result B) : result B :=
  match m with Ok a => k a | Err e => Err e end.

(** ** Data model *)

(** A cart entry [customer["cart"][pid]]. *)
Record cart_item := {
  ci_product_id : string;
  ci_quantity : Z;
  ci_price : Q;
  ci_subtotal : Q
}.

(** [sum(item["subtotal"] for item in cart.values())]. *)
Definition cart_total (cart : gmap string cart_item) : Q :=
  fold_left (fun acc it => Qplus acc (ci_subtotal it))
    (map snd (map_to_list cart)) 0%Q.

Record cart_based := {
  cb_threshold : Q;
  cb_discount_percentage : Q;
  cb_max_discount : pyopt Q
}.

Record product_based := {
  pb_product_ids : list string;
  pb_discount_percentage : Q;
  pb_min_quantity : pyopt Z
}.

Record bxgy := {
  bx_buy_products : list string;
  bx_buy_quantity : Z;
  bx_get_products : list string;
  bx_get_quantity : Z;
  bx_discount_percentage : Q;
  bx_repetition_limit : pyopt Z
}.

(** [coupon["type"]] together with [coupon["details"]]. *)
Inductive details : Type :=
| CartWise : cart_based -> details
| ProductWise : product_based -> details
| Bxgy : bxgy -> details
| OtherType : string -> details.

Record coupon := {
  coupon_id : string;
  is_active : bool;
  valid_from : Z;
  valid_until : pyopt Z;
  user_tiers : pyopt (list string);
  coupon_details : details
}.

Definition coupon_type (c : coupon) : string :=
  match coupon_details c with
  | CartWise _ => "cart-wise"
  | ProductWise _ => "product-wise"
  | Bxgy _ => "bxgy"
  | OtherType t => t
  end.

(** The discount summary pushed to [coupon_history] ([applied_at] left out). *)
Record decision := {
  d_coupon_id : string;
  d_coupon_type : string;
  d_discount_amount : Q;
  d_original_total : Q;
  d_final_total : Q
}.

(** A value of the [exclusive_coupons] document: a remaining-use counter,
    or a sub-document, which a [$set] through a dotted field path creates. *)
#[warnings="-register-all"]
Inductive exval : Type :=
| ExNum (z : Z)
| ExDoc (fs : list (string * exval)).

Record customer := {
  tier : option string;                    (* customer.get("tier", "Basic") *)
  cart : gmap string cart_item;            (* missing "cart" = empty cart *)
  exclusive_coupons : gmap string exval;   (* missing = {} *)
  coupon_history : list decision
}.

Definition customer_tier (c : customer) : string :=
  match tier c with Some t => t | None => "Basic" end.

Definition cart_is_empty (cart : gmap string cart_item) : bool :=
  bool_decide (cart = ∅).

(** ** Per-type discount computation

    Both endpoints contain the same text for each coupon type; the
    helpers below are shared.  They differ only in the cart-wise case,
    see [list_applicable] and [apply_coupon]. *)

(** Cart-wise, lines 219-223 / 335-339:
    [min(cart_total * (pct / 100), details.get("max_discount", inf))]. *)
Definition cart_wise_discount (total : Q) (d : cart_based) : result Q :=
  let x := Qmult total (Qdiv (cb_discount_percentage d) 100) in
  match cb_max_discount d with
  | Missing => Ok x
  | PyNone => Err TypeError
  | PyVal m => Ok (py_min x m)
  end.

(** One iteration of the product-wise loop, lines 229-232 / 342-345. *)
Definition product_wise_step (cart : gmap string cart_item) (d : product_based)
    (acc : result Q) (pid : string) : result Q :=
  rbind acc (fun disc =>
    match cart !! pid with
    | None => Ok disc
    | Some it =>
        match pb_min_quantity d with
        | PyNone => Err TypeError
        | mq =>
            let minq := match mq with PyVal m => m | _ => 1 end in
            if minq <=? ci_quantity it
            then Ok (Qplus disc
                       (Qmult (ci_subtotal it) (Qdiv (pb_discount_percentage d) 100)))
            else Ok disc
        end
    end).

Definition product_wise_discount (cart : gmap string cart_item)
    (d : product_based) : result Q :=
  fold_left (product_wise_step cart d) (pb_product_ids d) (Ok 0%Q).

(** *** Buy-X-get-Y *)

(** Assignment [d[k] = v] on a Python dict kept as an association list in
    insertion order: an existing key keeps its position. *)
Fixpoint dict_set {V} (k : string) (v : V) (d : list (string * V))
    : list (string * V) :=
  match d with
  | [] => [(k, v)]
  | (k', v') :: d' =>
      if String.eqb k k' then (k, v) :: d' else (k', v') :: dict_set k v d'
  end.

(** [eligible_buy_products]: product id to cart quantity. *)
Definition eligible_buy (cart : gmap string cart_item) (pids : list string)
    : list (string * Z) :=
  fold_left (fun eb pid =>
    match cart !! pid with
    | Some it => dict_set pid (ci_quantity it) eb
    | None => eb
    end) pids [].

Record get_info := { g_quantity : Z; g_price : Q }.

(** [eligible_get_products]: product id to quantity and price. *)
Definition eligible_get (cart : gmap string cart_item) (pids : list string)
    : list (string * get_info) :=
  fold_left (fun eg pid =>
    match cart !! pid with
    | Some it =>
        dict_set pid {| g_quantity := ci_quantity it; g_price := ci_price it |} eg
    | None => eg
    end) pids [].

(** [sorted(..., key=lambda x: x[1])]: Python's sort is stable, so its
    result is the stable sort by price, computed here by insertion sort.
    The source sorts [(pid, price)] pairs and reads the quantity back from
    [eligible_get_products[pid]]; the keys are unique, so sorting the
    entries themselves gives the same sequence. *)
Fixpoint insert_by_price (x : string * get_info) (s : list (string * get_info))
    : list (string * get_info) :=
  match s with
  | [] => [x]
  | y :: s' =>
      if qlt (g_price (snd y)) (g_price (snd x))
      then y :: insert_by_price x s'
      else x :: s
  end.

Fixpoint sort_by_price (l : list (string * get_info)) : list (string * get_info) :=
  match l with
  | [] => []
  | x :: l' => insert_by_price x (sort_by_price l')
  end.

(** Loop state: [discount] and [units_discounted]. *)
Record astate := { a_discount : Q; a_units : Z }.

(** One iteration of the allocation loop, lines 279-288 / 387-396; the
    boolean is [true] when the loop [break]s. *)
Definition alloc_step (pct : Q) (total_get_units : Z) (st : astate)
    (c : string * get_info) : astate * bool :=
  let units_to_discount :=
    Z.min (g_quantity (snd c)) (total_get_units - a_units st) in
  if 0 <? units_to_discount then
    let st' := {| a_discount :=
                    Qplus (a_discount st)
                      (Qmult (Qmult (inject_Z units_to_discount) (g_price (snd c)))
                         (Qdiv pct 100));
                  a_units := a_units st + units_to_discount |} in
    (st', total_get_units <=? a_units st')
  else (st, false).

Fixpoint alloc (pct : Q) (total_get_units : Z) (cs : list (string * get_info))
    (st : astate) : astate :=
  match cs with
  | [] => st
  | c :: cs' =>
      let '(st', brk) := alloc_step pct total_get_units st c in
      if brk then st' else alloc pct total_get_units cs' st'
  end.

(** The states the loop passes through, the initial one first. *)
Fixpoint alloc_states (pct : Q) (total_get_units : Z)
    (cs : list (string * get_info)) (st : astate) : list astate :=
  st :: match cs with
        | [] => []
        | c :: cs' =>
            let '(st', brk) := alloc_step pct total_get_units st c in
            if brk then [st'] else alloc_states pct total_get_units cs' st'
        end.

Definition astate0 : astate := {| a_discount := 0%Q; a_units := 0 |}.

(** [buy_units] after the repetition limit, lines 259-263 / 368-372:
    [if details.get("repetition_limit"): buy_units = min(...)], a
    truthiness test. *)
Definition cap_buy_units (buy_units : Z) (rep : pyopt Z) : Z :=
  match rep with
  | PyVal r => if r =? 0 then buy_units else Z.min buy_units r
  | _ => buy_units
  end.

(** The whole buy-X-get-Y evaluation, lines 240-292 / 349-396; the
    result is 0 where the source leaves [discount] untouched. *)
Definition bxgy_discount (cart : gmap string cart_item) (d : bxgy) : result Q :=
  let eb := eligible_buy cart (bx_buy_products d) in
  let eg := eligible_get cart (bx_get_products d) in
  match eb, eg with
  | [], _ | _, [] => Ok 0%Q
  | _, _ =>
      let total_buy_quantity := fold_left Z.add (map snd eb) 0 in
      if bx_buy_quantity d =? 0 then Err ZeroDivisionError else
      let buy_units :=
        cap_buy_units (total_buy_quantity / bx_buy_quantity d)
                      (bx_repetition_limit d) in
      if 0 <? buy_units then
        let total_get_units := buy_units * bx_get_quantity d in
        Ok (a_discount (alloc (bx_discount_percentage d) total_get_units
                          (sort_by_price eg) astate0))
      else Ok 0%Q
  end.

(** ** Endpoints *)

(** [applicable_coupons.sort(key=calculated_discount, reverse=True)]:
    a stable sort, highest discount first, ties in their original order. *)
Fixpoint insert_desc (x : coupon * Q) (s : list (coupon * Q)) : list (coupon * Q) :=
  match s with
  | [] => [x]
  | y :: s' => if qlt (snd x) (snd y) then y :: insert_desc x s' else x :: s
  end.

Fixpoint sort_desc (l : list (coupon * Q)) : list (coupon * Q) :=
  match l with
  | [] => []
  | x :: l' => insert_desc x (sort_desc l')
  end.

(** One iteration of the loop over [all_coupons], lines 213-292: each
    applicable coupon is appended with its [calculated_discount]. *)
Definition list_step (total : Q) (cart : gmap string cart_item)
    (acc : result (list (coupon * Q))) (c : coupon) : result (list (coupon * Q)) :=
  rbind acc (fun l =>
    match coupon_details c with
    | CartWise d =>
        if Qle_bool (cb_threshold d) total
        then rbind (cart_wise_discount total d) (fun x => Ok (l ++ [(c, x)]))
        else Ok l
    | ProductWise d =>
        rbind (product_wise_discount cart d)
          (fun x => if qlt 0 x then Ok (l ++ [(c, x)]) else Ok l)
    | Bxgy d =>
        rbind (bxgy_discount cart d)
          (fun x => if qlt 0 x then Ok (l ++ [(c, x)]) else Ok l)
    | OtherType _ => Ok l
    end).

(** [get_applicable_coupons] for a known customer.  [all_coupons] is the
    result of the MongoDB query of lines 201-209 (active, in their
    validity window, open to the customer's tier). *)
Definition list_applicable (cust : customer) (all_coupons : list coupon)
    : result (list (coupon * Q)) :=
  if cart_is_empty (cart cust) then Ok [] else
  let total := cart_total (cart cust) in
  rbind (fold_left (list_step total (cart cust)) all_coupons (Ok []))
    (fun l => Ok (sort_desc l)).

(** The recomputed discount of [apply_coupon], lines 331-396. *)
Definition apply_discount (cart : gmap string cart_item) (total : Q)
    (c : coupon) : result Q :=
  match coupon_details c with
  | CartWise d =>
      if Qle_bool (cb_threshold d) total then cart_wise_discount total d
      else Ok 0%Q
  | ProductWise d => product_wise_discount cart d
  | Bxgy d => bxgy_discount cart d
  | OtherType _ => Ok 0%Q
  end.

Definition tier_allowed (t : string) (tiers : pyopt (list string)) : result bool :=
  match tiers with
  | Missing => Ok (bool_decide (t ∈ ["Basic"%string]))
  | PyNone => Err TypeError
  | PyVal ts => Ok (bool_decide (t ∈ ts))
  end.

(** *** MongoDB field paths

    [{"$set": {f"exclusive_coupons.{coupon_id}": v}}] does not name the key
    [coupon_id]: the server splits the path at every dot and walks one
    level per component, creating the missing levels as sub-documents.  A
    level that holds a non-document, an empty component, or a component
    starting with ['$'] makes the update fail with a write error. *)

(** [s.split(".")]. *)
Fixpoint split_dots (s : string) : list string :=
  match s with
  | EmptyString => [""%string]
  | String ch s' =>
      let parts := split_dots s' in
      if Ascii.eqb ch "."%char then ""%string :: parts
      else match parts with
           | [] => [String ch ""]
           | w :: ws => String ch w :: ws
           end
  end.

Definition path_component_ok (w : string) : bool :=
  match w with
  | EmptyString => false
  | String ch _ => negb (Ascii.eqb ch "$"%char)
  end.

(** [d.get(k)] on a sub-document. *)
Fixpoint doc_get (k : string) (d : list (string * exval)) : option exval :=
  match d with
  | [] => None
  | (k', v) :: d' => if String.eqb k k' then Some v else doc_get k d'
  end.

(** [v] under the remaining components, one new sub-document per level. *)
Fixpoint nest (path : list string) (v : exval) : exval :=
  match path with
  | [] => v
  | k :: p => ExDoc [(k, nest p v)]
  end.

(** [$set] of [path] to [v] inside a sub-document. *)
Fixpoint doc_set (path : list string) (v : exval) (d : list (string * exval))
    : option (list (string * exval)) :=
  match path with
  | [] => None
  | [k] => Some (dict_set k v d)
  | k :: p =>
      match doc_get k d with
      | None => Some (dict_set k (nest p v) d)
      | Some (ExDoc d') => option_map (fun d'' => dict_set k (ExDoc d'') d) (doc_set p v d')
      | Some (ExNum _) => None
      end
  end.

(** [$set] of [exclusive_coupons.<path>] to [v]; [None] is the write
    error. *)
Definition set_exclusive (path : list string) (v : exval) (m : gmap string exval)
    : option (gmap string exval) :=
  if negb (forallb path_component_ok path) then None else
  match path with
  | [] => None
  | [k] => Some (<[k := v]> m)
  | k :: p =>
      match m !! k with
      | None => Some (<[k := nest p v]> m)
      | Some (ExDoc d) => option_map (fun d' => <[k := ExDoc d']> m) (doc_set p v d)
      | Some (ExNum _) => None
      end
  end.

(** [apply_coupon] for a known customer and coupon at time [now]; on
    success it returns the discount summary and the customer document
    after the two updates: the exclusive counter, written by
    [set_exclusive] along the field path the coupon id spells, and the
    history.  A refused write fails the call before the history update. *)
Definition apply_coupon (cust : customer) (c : coupon) (now : Z)
    : result (decision * customer) :=
  if negb (is_active c) || (now <? valid_from c) then Err NotActive else
  if match valid_until c with PyVal u => u <? now | _ => false end
  then Err Expired else
  rbind (tier_allowed (customer_tier cust) (user_tiers c)) (fun ok =>
  if negb ok then Err TierIneligible else
  if cart_is_empty (cart cust) then Err EmptyCart else
  let total := cart_total (cart cust) in
  rbind (apply_discount (cart cust) total c) (fun discount =>
  if Qle_bool discount 0 then Err NotApplicable else
  let final_price := Qminus total discount in
  let summary := {| d_coupon_id := coupon_id c;
                    d_coupon_type := coupon_type c;
                    d_discount_amount := discount;
                    d_original_total := total;
                    d_final_total := final_price |} in
  let push (cu : customer) : customer :=
    {| tier := tier cu; cart := cart cu;
       exclusive_coupons := exclusive_coupons cu;
       coupon_history := coupon_history cu ++ [summary] |} in
  match exclusive_coupons cust !! coupon_id c with
  | Some (ExNum usage_limit) =>
      if usage_limit <=? 0 then Err UsageExhausted else
      match set_exclusive (split_dots (coupon_id c)) (ExNum (usage_limit - 1))
              (exclusive_coupons cust) with
      | Some ex =>
          Ok (summary,
              push {| tier := tier cust; cart := cart cust;
                      exclusive_coupons := ex;
                      coupon_history := coupon_history cust |})
      | None => Err WriteError
      end
  | Some (ExDoc _) => Err TypeError
  | None => Ok (summary, push cust)
  end)).

(** ** The fixtures of src/unit_test.py *)

Definition mk_item (pid : string) (q : Z) (price : Q) : cart_item :=
  {| ci_product_id := pid; ci_quantity := q; ci_price := price;
     ci_subtotal := Qmult (inject_Z q) price |}.

Definition test_cart : gmap string cart_item :=
  list_to_map [("p123", mk_item "p123" 2 50); ("p456", mk_item "p456" 1 30);
               ("p789", mk_item "p789" 1 20)]%string.

Definition test_customer : customer :=
  {| tier := Some "Silver"%string; cart := test_cart;
     exclusive_coupons := list_to_map [("EXCLUSIVE10"%string, ExNum 2)];
     coupon_history := [] |}.

Definition all_tiers : list string := ["Basic"; "Silver"; "Gold"; "Platinum"]%string.

Definition cart20 : coupon :=
  {| coupon_id := "CART20"; is_active := true; valid_from := 0;
     valid_until := PyVal 100; user_tiers := PyVal all_tiers;
     coupon_details := CartWise {| cb_threshold := 100; cb_discount_percentage := 20;
                                   cb_max_discount := PyVal 50%Q |} |}.

Definition prod15_details : product_based :=
  {| pb_product_ids := ["p123"; "p456"]%string;
     pb_discount_percentage := 15; pb_min_quantity := PyVal 2 |}.

Definition prod15 : coupon :=
  {| coupon_id := "PROD15"; is_active := true; valid_from := 0;
     valid_until := PyNone; user_tiers := PyVal all_tiers;
     coupon_details := ProductWise prod15_details |}.

Definition buy2get1_details (rep : pyopt Z) : bxgy :=
  {| bx_buy_products := ["p123"; "p456"]%string; bx_buy_quantity := 2;
     bx_get_products := ["p789"%string]; bx_get_quantity := 1;
     bx_discount_percentage := 100; bx_repetition_limit := rep |}.

Definition buy2get1 : coupon :=
  {| coupon_id := "BUY2GET1"; is_active := true; valid_from := 0;
     valid_until := PyVal 100; user_tiers := PyVal ["Silver"; "Gold"; "Platinum"]%string;
     coupon_details := Bxgy (buy2get1_details (PyVal 1)) |}.


(** [create_coupon], lines 24-27 and 66: [coupon.dict()] stores every field
    of [CartBasedCoupon], so a request without [max_discount] stores
    ["max_discount": None]. *)
Definition stored_cart_based (threshold pct : Q) (max_discount : option Q)
    : cart_based :=
  {| cb_threshold := threshold; cb_discount_percentage := pct;
     cb_max_discount := match max_discount with
                        | Some m => PyVal m
                        | None => PyNone
                        end |}.

(** A cart-wise coupon created through [POST /coupons] without a cap. *)
Definition cart20_nocap : coupon :=
  {| coupon_id := "CART20NOCAP"; is_active := true; valid_from := 0;
     valid_until := PyNone; user_tiers := PyVal all_tiers;
     coupon_details := CartWise (stored_cart_based 100 20 None) |}.

(** Two carts with equal-priced get products [a] and [b]. *)
Definition tie_cart : gmap string cart_item :=
  list_to_map [("a", mk_item "a" 1 10); ("b", mk_item "b" 1 10)]%string.

(** Adjacent swaps of equal-priced get candidates. *)
Inductive tie_equiv : list (string * get_info) -> list (string * get_info) -> Prop :=
| te_nil : tie_equiv [] []
| te_skip x l1 l2 : tie_equiv l1 l2 -> tie_equiv (x :: l1) (x :: l2)
| te_swap x y l :
    Qeq (g_price (snd x)) (g_price (snd y)) -> tie_equiv (x :: y :: l) (y :: x :: l)
| te_trans l1 l2 l3 : tie_equiv l1 l2 -> tie_equiv l2 l3 -> tie_equiv l1 l3.

(** The get candidates with unit price [p]. *)
Definition price_is (p : Q) (x : string * get_info) : bool :=
  Qeq_bool (g_price (snd x)) p.

(** The products of [pids] that are in [cart], each once, in the order of
    their first occurrence in [pids] after those in [seen]. *)
Fixpoint first_occurrences_from (cart : gmap string cart_item) (seen : list string)
    (pids : list string) : list string :=
  match pids with
  | [] => []
  | p :: ps =>
      if bool_decide (p ∈ seen) then first_occurrences_from cart seen ps
      else match cart !! p with
           | Some _ => p :: first_occurrences_from cart (seen ++ [p]) ps
           | None => first_occurrences_from cart seen ps
           end
  end.

Definition first_occurrences (cart : gmap string cart_item) (pids : list string)
    : list string :=
  first_occurrences_from cart [] pids.

Definition price_le (x y : string * get_info) : Prop :=
  Qle (g_price (snd x)) (g_price (snd y)).

(** The allocation loop without its [break]. *)
Fixpoint alloc_nobreak (pct : Q) (total_get_units : Z)
    (cs : list (string * get_info)) (st : astate) : astate :=
  match cs with
  | [] => st
  | c :: cs' => alloc_nobreak pct total_get_units cs'
                  (fst (alloc_step pct total_get_units st c))
  end.

Definition astate_eq (s1 s2 : astate) : Prop :=
  Qeq (a_discount s1) (a_discount s2) /\ a_units s1 = a_units s2.

(** The BUY2GET1 fixture with [repetition_limit] set to 0. *)
Definition buy2get1_rep0 : coupon :=
  {| coupon_id := "BUY2GET1"; is_active := true; valid_from := 0;
     valid_until := PyVal 100; user_tiers := PyVal ["Silver"; "Gold"; "Platinum"]%string;
     coupon_details := Bxgy (buy2get1_details (PyVal 0)) |}.

(** A customer whose cart holds one free item. *)
Definition gift_customer : customer :=
  {| tier := Some "Basic"%string;
     cart := list_to_map [("gift"%string, mk_item "gift" 1 0)];
     exclusive_coupons := ∅; coupon_history := [] |}.

(** A cart-wise coupon open to every cart: threshold 0, 10%, no cap. *)
Definition any_cart10 : coupon :=
  {| coupon_id := "ANYCART10"; is_active := true; valid_from := 0;
     valid_until := PyNone; user_tiers := PyVal all_tiers;
     coupon_details := CartWise {| cb_threshold := 0; cb_discount_percentage := 10;
                                   cb_max_discount := Missing |} |}.

(** CART20 registered as an exclusive coupon of the test customer. *)
Definition exclusive10 : coupon :=
  {| coupon_id := "EXCLUSIVE10"; is_active := true; valid_from := 0;
     valid_until := PyVal 100; user_tiers := PyVal all_tiers;
     coupon_details := coupon_details cart20 |}.

(** The test customer with its EXCLUSIVE10 uses spent. *)
Definition exhausted_customer : customer :=
  {| tier := Some "Silver"%string; cart := test_cart;
     exclusive_coupons := list_to_map [("EXCLUSIVE10"%string, ExNum 0)];
     coupon_history := [] |}.

(** CART20 under an id with a dot, registered as an exclusive coupon of a
    customer with two uses left. *)
Definition vip10 : coupon :=
  {| coupon_id := "VIP.10"; is_active := true; valid_from := 0;
     valid_until := PyVal 100; user_tiers := PyVal all_tiers;
     coupon_details := coupon_details cart20 |}.

Definition vip_customer : customer :=
  {| tier := Some "Silver"%string; cart := test_cart;
     exclusive_coupons := list_to_map [("VIP.10"%string, ExNum 2)];
     coupon_history := [] |}.


(** The checks [apply_coupon] makes before it looks at the cart:
    active, in its validity window, open to the customer's tier. *)
Definition passes_checks (cust : customer) (c : coupon) (now : Z) : Prop :=
  is_active c = true /\ valid_from c <= now /\
  (forall v, valid_until c = PyVal v -> now <= v) /\
  tier_allowed (customer_tier cust) (user_tiers c) = Ok true.



(** Cart lines as [add_to_cart] and [update_cart_item] write them:
    [subtotal = quantity * price], with nonnegative quantity and price. *)
Definition cart_well_formed (cart : gmap string cart_item) : Prop :=
  forall k it, cart !! k = Some it ->
    0 <= ci_quantity it /\ Qle 0 (ci_price it) /\
    Qeq (ci_subtotal it) (inject_Z (ci_quantity it) * ci_price it).

Definition pct_in_range (pct : Q) : Prop := Qlt 0 pct /\ Qle pct 100.

(** Coupons within the spec's invariants (section 3): a percentage in
    (0, 100], duplicate-free product lists, [min_quantity] a number or
    absent. *)
Definition coupon_well_formed (c : coupon) : Prop :=
  match coupon_details c with
  | CartWise d => pct_in_range (cb_discount_percentage d)
  | ProductWise d =>
      pct_in_range (pb_discount_percentage d) /\ NoDup (pb_product_ids d) /\
      pb_min_quantity d <> PyNone
  | Bxgy d =>
      pct_in_range (bx_discount_percentage d) /\
      NoDup (bx_buy_products d) /\ NoDup (bx_get_products d)
  | OtherType _ => True
  end.

(** Sum of the subtotals of a list of cart lines. *)
Definition sub_sum (l : list cart_item) : Q :=
  fold_right (fun it acc => Qplus (ci_subtotal it) acc) 0%Q l.

(** Sum of [units * price * pct / 100] over get candidates, every unit
    taken. *)
Definition candidates_value (pct : Q) (cs : list (string * get_info)) : Q :=
  fold_right (fun c acc =>
    Qplus (Qmult (Qmult (inject_Z (g_quantity (snd c))) (g_price (snd c))) (Qdiv pct 100))
      acc) 0%Q cs.

(** Value checks up to [Qeq]: [20.00] and [20] are the same float. *)
Definition ok_eq (r : result Q) (q : Q) : bool :=
  match r with Ok x => Qeq_bool x q | Err _ => false end.

Definition applied_eq (r : result (decision * customer)) (q : Q) : bool :=
  match r with Ok (d, _) => Qeq_bool (d_discount_amount d) q | Err _ => false end.

(** [details.get("min_quantity", 1)] for a stored number or a missing key. *)
Definition min_quantity_of (d : product_based) : Z :=
  match pb_min_quantity d with PyVal m => m | _ => 1 end.

(** Following the spec (section 4.3): the contribution of one listed
    product, and the sum of the contributions over [product_ids]. *)
Definition per_product_contribution (cart : gmap string cart_item)
    (d : product_based) (pid : string) : Q :=
  match cart !! pid with
  | Some it =>
      if min_quantity_of d <=? ci_quantity it
      then Qmult (ci_subtotal it) (Qdiv (pb_discount_percentage d) 100)
      else 0%Q
  | None => 0%Q
  end.

Definition per_product_spec (cart : gmap string cart_item) (d : product_based) : Q :=
  fold_right (fun pid acc => Qplus (per_product_contribution cart d pid) acc)
    0%Q (pb_product_ids d).

Definition with_product_ids (d : product_based) (ids : list string) : product_based :=
  {| pb_product_ids := ids; pb_discount_percentage := pb_discount_percentage d;
     pb_min_quantity := pb_min_quantity d |}.

(** PROD15 with [p123] listed twice. *)
Definition prod15_dup_details : product_based :=
  {| pb_product_ids := ["p123"; "p123"; "p456"]%string;
     pb_discount_percentage := 15; pb_min_quantity := PyVal 2 |}.

(** Units one allocation step takes: [min(q, r)] when positive, else 0. *)
Definition take (q r : Z) : Z := Z.max 0 (Z.min q r).

(** Every cart line has a nonnegative subtotal. *)
Definition subtotals_nonneg (m : gmap string cart_item) : Prop :=
  forall k it, m !! k = Some it -> Qle 0 (ci_subtotal it).

(** A get candidate with nonnegative quantity and price. *)
Definition candidate_nonneg (c : string * get_info) : Prop :=
  0 <= g_quantity (snd c) /\ Qle 0 (g_price (snd c)).

(** An [eligible_get_products] entry copied from the cart line of its key. *)
Definition entry_from_cart (cart : gmap string cart_item) (e : string * get_info) : Prop :=
  exists it, cart !! fst e = Some it /\
             snd e = {| g_quantity := ci_quantity it; g_price := ci_price it |}.

(** ** The service state and the remaining endpoints

    The three MongoDB collections.  A customer is found by its [_id]
    ([ObjectId(customer_id)], kept as the id string), a product by
    [product_id], a coupon by [coupon_id].  [coupons] is the collection in
    insertion order, and [find_one] returns the first match. *)
Record store := {
  customers : gmap string customer;
  products : gset string;
  coupons : list coupon
}.

(** An endpoint's answer: its JSON body, or an [HTTPException] with status
    code and detail. *)
Inductive response (A : Type) : Type :=
| Resp : A -> response A
| HTTPError : Z -> string -> response A.
Arguments Resp {A} _.
Arguments HTTPError {A} _ _.

Definition set_customers (s : store) (cs : gmap string customer) : store :=
  {| customers := cs; products := products s; coupons := coupons s |}.

Definition set_coupons (s : store) (l : list coupon) : store :=
  {| customers := customers s; products := products s; coupons := l |}.

(** [coupons_collection.find_one({"coupon_id": id})]. *)
Definition find_coupon (l : list coupon) (id : string) : option coupon :=
  List.find (fun c => String.eqb (coupon_id c) id) l.

(** [create_coupon], lines 60-77, for the document built from the request
    (lines 65-73): refused when the id is taken, appended otherwise. *)
Definition create_coupon (s : store) (c : coupon) : response string * store :=
  match find_coupon (coupons s) (coupon_id c) with
  | Some _ => (HTTPError 400 "Coupon ID already exists", s)
  | None => (Resp "Coupon created successfully", set_coupons s (coupons s ++ [c]))
  end.

(** [get_coupon], lines 88-95. *)
Definition get_coupon (s : store) (id : string) : response coupon :=
  match find_coupon (coupons s) id with
  | Some c => Resp c
  | None => HTTPError 404 "Coupon not found"
  end.

(** [delete_one({"coupon_id": id})]: removes the first match. *)
Fixpoint delete_first (id : string) (l : list coupon) : option (list coupon) :=
  match l with
  | [] => None
  | c :: l' =>
      if String.eqb (coupon_id c) id then Some l'
      else option_map (cons c) (delete_first id l')
  end.

(** [delete_coupon], lines 105-111. *)
Definition delete_coupon (s : store) (id : string) : response string * store :=
  match delete_first id (coupons s) with
  | None => (HTTPError 404 "Coupon not found", s)
  | Some l => (Resp "Coupon deleted successfully", set_coupons s l)
  end.

(** The filter of the [coupons_collection.find] query, lines 201-209, at
    time [now] for tier [t].  The [None] alternative on [valid_until] also
    matches a missing field; [user_tiers: t] matches an array holding [t]. *)
Definition coupon_query (now : Z) (t : string) (c : coupon) : bool :=
  is_active c && (valid_from c <=? now) &&
  match valid_until c with PyVal u => now <=? u | _ => true end &&
  match user_tiers c with PyVal ts => bool_decide (t ∈ ts) | _ => false end.

(** [get_applicable_coupons], lines 184-297. *)
Definition get_applicable_coupons (s : store) (customer_id : string) (now : Z)
    : response (result (list (coupon * Q))) :=
  match customers s !! customer_id with
  | None => HTTPError 404 "Customer not found"
  | Some cu =>
      Resp (list_applicable cu
              (List.filter (coupon_query now (customer_tier cu)) (coupons s)))
  end.

(** [apply_coupon] the endpoint, lines 299-437: the customer, then the
    first coupon stored with the id ([find_one]), then the evaluation; a
    successful call stores the updated customer document. *)
Definition apply_coupon_at (s : store) (customer_id id : string) (now : Z)
    : response (result decision) * store :=
  match customers s !! customer_id with
  | None => (HTTPError 404 "Customer not found", s)
  | Some cu =>
      match find_coupon (coupons s) id with
      | None => (HTTPError 404 "Coupon not found", s)
      | Some c =>
          match apply_coupon cu c now with
          | Ok (dec, cu') =>
              (Resp (Ok dec), set_customers s (<[customer_id := cu']> (customers s)))
          | Err e => (Resp (Err e), s)
          end
      end
  end.

(** The exclusive-coupon step of [apply_coupon] lets the call through:
    the coupon is not exclusive for the customer, or its counter is a
    positive number and the decrement is a valid write. *)
Definition exclusive_passes (cu : customer) (id : string) : Prop :=
  match exclusive_coupons cu !! id with
  | None => True
  | Some (ExNum u) =>
      0 < u /\ is_Some (set_exclusive (split_dots id) (ExNum (u - 1)) (exclusive_coupons cu))
  | Some (ExDoc _) => False
  end.

(** [eligible_buy_products] and [eligible_get_products] are both this loop,
    with the value stored for a product present in the cart. *)
Definition eligible_with {V} (f : cart_item -> V) (cart : gmap string cart_item)
    (pids : list string) : list (string * V) :=
  fold_left (fun e pid =>
    match cart !! pid with
    | Some it => dict_set pid (f it) e
    | None => e
    end) pids [].

Definition with_repetition_limit (d : bxgy) (r : pyopt Z) : bxgy :=
  {| bx_buy_products := bx_buy_products d; bx_buy_quantity := bx_buy_quantity d;
     bx_get_products := bx_get_products d; bx_get_quantity := bx_get_quantity d;
     bx_discount_percentage := bx_discount_percentage d; bx_repetition_limit := r |}.

Definition with_buy_products (d : bxgy) (l : list string) : bxgy :=
  {| bx_buy_products := l; bx_buy_quantity := bx_buy_quantity d;
     bx_get_products := bx_get_products d; bx_get_quantity := bx_get_quantity d;
     bx_discount_percentage := bx_discount_percentage d;
     bx_repetition_limit := bx_repetition_limit d |}.

Definition with_get_products (d : bxgy) (l : list string) : bxgy :=
  {| bx_buy_products := bx_buy_products d; bx_buy_quantity := bx_buy_quantity d;
     bx_get_products := l; bx_get_quantity := bx_get_quantity d;
     bx_discount_percentage := bx_discount_percentage d;
     bx_repetition_limit := bx_repetition_limit d |}.

(** The fixture store: the test customer, its three products, the three
    test coupons. *)
Definition test_store : store :=
  {| customers := {[ "c1"%string := test_customer ]};
     products := {[ "p123"%string; "p456"%string; "p789"%string ]};
     coupons := [cart20; prod15; buy2get1] |}.

(** Listing entries, highest discount first. *)
Definition disc_ge (a b : coupon * Q) : Prop := Qle (snd b) (snd a).

(** The listing [get_applicable_coupons] returns for the test customer at
    time 10 with the test store, and its first entry. *)
Definition test_listing : list (coupon * Q) :=
  match get_applicable_coupons test_store "c1" 10 with
  | Resp (Ok l) => l
  | _ => []
  end.

Definition test_top : coupon * Q := hd (cart20, 0%Q) test_listing.

(** A value of a result, 0 for an error. *)
Definition result_value (r : result Q) : Q :=
  match r with Ok x => x | Err _ => 0%Q end.

(** BUY2GET1 with [buy_quantity] 0. *)
Definition buy0get1_details : bxgy :=
  {| bx_buy_products := ["p123"; "p456"]%string; bx_buy_quantity := 0;
     bx_get_products := ["p789"%string]; bx_get_quantity := 1;
     bx_discount_percentage := 100; bx_repetition_limit := PyVal 1 |}.

Definition buy0get1 : coupon :=
  {| coupon_id := "BUY0GET1"; is_active := true; valid_from := 0;
     valid_until := PyVal 100; user_tiers := PyVal all_tiers;
     coupon_details := Bxgy buy0get1_details |}.


(** * Proofs *)

From Stdlib Require Import Lqa.

Lemma qlt_true a b : qlt a b = true <-> Qlt a b.
Proof.
  unfold qlt. rewrite negb_true_iff.
  split; intros H.
  - apply Qnot_le_lt. intros H'. apply Qle_bool_iff in H'. congruence.
  - destruct (Qle_bool b a) eqn:E; [|reflexivity].
    apply Qle_bool_iff in E. lra.
Qed.

Lemma qlt_false a b : qlt a b = false <-> Qle b a.
Proof.
  unfold qlt. rewrite negb_false_iff. apply Qle_bool_iff.
Qed.

Ltac qlt_cases a b :=
  let E := fresh "E" in
  destruct (qlt a b) eqn:E;
  [apply qlt_true in E | apply qlt_false in E].

(** ** Cart-wise evaluation *)

(** The cart-wise formula where the cap is absent from the document or a
    number. *)
Lemma cart_wise_discount_formula (total : Q) (d : cart_based) :
  (cb_max_discount d = Missing ->
     cart_wise_discount total d = Ok (total * (cb_discount_percentage d / 100))%Q) /\
  (forall m, cb_max_discount d = PyVal m ->
     exists x, cart_wise_discount total d = Ok x /\
       Qle x m /\ Qle x (total * (cb_discount_percentage d / 100)) /\
       (Qeq x m \/ Qeq x (total * (cb_discount_percentage d / 100)))).
Proof.
  unfold cart_wise_discount. split; [intros H; rewrite H; reflexivity|].
  intros m Hm. rewrite Hm. eexists; split; [reflexivity|].
  unfold py_min. qlt_cases m (total * (cb_discount_percentage d / 100))%Q;
    repeat split; try lra.
Qed.

(** ** Buy-X-get-Y allocation *)

Lemma alloc_step_done pct T st c :
  T <= a_units st -> alloc_step pct T st c = (st, false).
Proof.
  intros H. unfold alloc_step.
  destruct (Z.ltb_spec 0 (Z.min (g_quantity (snd c)) (T - a_units st))); [lia|].
  reflexivity.
Qed.

Lemma alloc_nobreak_done pct T cs st :
  T <= a_units st -> alloc_nobreak pct T cs st = st.
Proof.
  revert st; induction cs as [|c cs IH]; intros st H; simpl; [reflexivity|].
  rewrite alloc_step_done by exact H. simpl. apply IH, H.
Qed.

(** The [break] only skips iterations that would change nothing. *)
Lemma alloc_eq_nobreak pct T cs st :
  alloc pct T cs st = alloc_nobreak pct T cs st.
Proof.
  revert st; induction cs as [|c cs IH]; intros st; simpl; [reflexivity|].
  destruct (alloc_step pct T st c) as [st' brk] eqn:E. simpl.
  destruct brk; [|apply IH].
  unfold alloc_step in E.
  destruct (0 <? _) eqn:Hp; inversion E; subst; clear E.
  symmetry. apply alloc_nobreak_done. apply Z.leb_le. assumption.
Qed.

Lemma alloc_step_effect pct T st c :
  astate_eq (fst (alloc_step pct T st c))
    {| a_discount := a_discount st +
         inject_Z (take (g_quantity (snd c)) (T - a_units st)) *
         g_price (snd c) * (pct / 100);
       a_units := a_units st + take (g_quantity (snd c)) (T - a_units st) |}.
Proof.
  unfold alloc_step, take, astate_eq. simpl.
  destruct (Z.ltb_spec 0 (Z.min (g_quantity (snd c)) (T - a_units st))) as [H|H];
    simpl.
  - rewrite Z.max_r by lia. split; [reflexivity|lia].
  - rewrite Z.max_l by lia. split; [simpl|lia].
    rewrite Qmult_0_l, Qmult_0_l, Qplus_0_r. reflexivity.
Qed.

Lemma alloc_step_compat pct T s1 s2 c :
  astate_eq s1 s2 -> astate_eq (fst (alloc_step pct T s1 c)) (fst (alloc_step pct T s2 c)).
Proof.
  intros [Hd Hu].
  destruct (alloc_step_effect pct T s1 c) as [D1 U1].
  destruct (alloc_step_effect pct T s2 c) as [D2 U2].
  split.
  - rewrite D1, D2. simpl. rewrite Hd, Hu. reflexivity.
  - rewrite U1, U2. simpl. rewrite Hu. reflexivity.
Qed.

Lemma alloc_nobreak_compat pct T cs s1 s2 :
  astate_eq s1 s2 -> astate_eq (alloc_nobreak pct T cs s1) (alloc_nobreak pct T cs s2).
Proof.
  revert s1 s2; induction cs as [|c cs IH]; intros s1 s2 H; simpl; [exact H|].
  apply IH, alloc_step_compat, H.
Qed.

Lemma astate_eq_trans s1 s2 s3 : astate_eq s1 s2 -> astate_eq s2 s3 -> astate_eq s1 s3.
Proof. intros [A B] [C D]. split; [rewrite A; exact C | congruence]. Qed.

Lemma astate_eq_refl s : astate_eq s s.
Proof. split; reflexivity. Qed.

Lemma astate_eq_sym s1 s2 : astate_eq s1 s2 -> astate_eq s2 s1.
Proof. intros [A B]. split; [rewrite A; reflexivity | congruence]. Qed.

(** Two consecutive steps, as a closed form. *)
Lemma alloc_step2_effect pct T st x y :
  let tx := take (g_quantity (snd x)) (T - a_units st) in
  let ty := take (g_quantity (snd y)) (T - (a_units st + tx)) in
  astate_eq (fst (alloc_step pct T (fst (alloc_step pct T st x)) y))
    {| a_discount := a_discount st + inject_Z tx * g_price (snd x) * (pct / 100)
                     + inject_Z ty * g_price (snd y) * (pct / 100);
       a_units := a_units st + tx + ty |}.
Proof.
  intros tx ty.
  eapply astate_eq_trans; [apply alloc_step_compat, alloc_step_effect|].
  eapply astate_eq_trans; [apply alloc_step_effect|]. simpl.
  apply astate_eq_refl.
Qed.

Lemma alloc_nobreak_swap pct T x y l st :
  Qeq (g_price (snd x)) (g_price (snd y)) ->
  astate_eq (alloc_nobreak pct T (x :: y :: l) st) (alloc_nobreak pct T (y :: x :: l) st).
Proof.
  intros Hp. simpl. apply alloc_nobreak_compat.
  eapply astate_eq_trans; [apply alloc_step2_effect|].
  apply astate_eq_sym.
  eapply astate_eq_trans; [apply alloc_step2_effect|].
  simpl. unfold take.
  set (u := a_units st). set (qx := g_quantity (snd x)). set (qy := g_quantity (snd y)).
  unfold astate_eq; simpl; split; [|lia].
  rewrite <- Hp. set (p := g_price (snd x)).
  set (a := Z.max 0 (Z.min qy (T - u))).
  set (b := Z.max 0 (Z.min qx (T - (u + a)))).
  set (c := Z.max 0 (Z.min qx (T - u))).
  set (e := Z.max 0 (Z.min qy (T - (u + c)))).
  assert (Hq : Qeq (inject_Z a + inject_Z b) (inject_Z c + inject_Z e)).
  { rewrite <- !inject_Z_plus. replace (a + b) with (c + e) by (unfold a, b, c, e; lia). reflexivity. }
  transitivity (a_discount st + (inject_Z a + inject_Z b) * p * (pct / 100))%Q;
    [ring|].
  rewrite Hq. ring.
Qed.

Lemma alloc_nobreak_tie pct T l1 l2 st :
  tie_equiv l1 l2 ->
  astate_eq (alloc_nobreak pct T l1 st) (alloc_nobreak pct T l2 st).
Proof.
  intros H; revert st; induction H as [|x l1 l2 _ IH|x y l Hp|l1 l2 l3 _ IH1 _ IH2];
    intros st.
  - apply astate_eq_refl.
  - simpl. apply IH.
  - apply alloc_nobreak_swap, Hp.
  - eapply astate_eq_trans; [apply IH1|apply IH2].
Qed.

Lemma tie_equiv_refl l : tie_equiv l l.
Proof. induction l; constructor; assumption. Qed.

Lemma insert_by_price_tie x s1 s2 :
  tie_equiv s1 s2 -> tie_equiv (insert_by_price x s1) (insert_by_price x s2).
Proof.
  induction 1 as [|y l1 l2 H IH|y z l Hp|l1 l2 l3 _ IH1 _ IH2]; simpl.
  - apply tie_equiv_refl.
  - qlt_cases (g_price (snd y)) (g_price (snd x)).
    + constructor; exact IH.
    + do 2 constructor; exact H.
  - qlt_cases (g_price (snd y)) (g_price (snd x));
      qlt_cases (g_price (snd z)) (g_price (snd x)); try lra.
    + constructor. exact Hp.
    + do 2 constructor. exact Hp.
  - eapply te_trans; eassumption.
Qed.

Lemma insert_by_price_comm x y s :
  tie_equiv (insert_by_price x (insert_by_price y s))
            (insert_by_price y (insert_by_price x s)).
Proof.
  induction s as [|z s IH]; simpl.
  - qlt_cases (g_price (snd y)) (g_price (snd x));
      qlt_cases (g_price (snd x)) (g_price (snd y)); simpl; try lra.
    + apply tie_equiv_refl.
    + apply tie_equiv_refl.
    + apply te_swap. lra.
  - qlt_cases (g_price (snd z)) (g_price (snd y));
      qlt_cases (g_price (snd z)) (g_price (snd x)); simpl.
    + (* z below both *)
      destruct (qlt (g_price (snd z)) (g_price (snd x))) eqn:F1;
        [|apply qlt_false in F1; lra].
      destruct (qlt (g_price (snd z)) (g_price (snd y))) eqn:F2;
        [|apply qlt_false in F2; lra].
      constructor. exact IH.
    + (* x <= z < y *)
      destruct (qlt (g_price (snd z)) (g_price (snd x))) eqn:F1;
        [apply qlt_true in F1; lra|].
      destruct (qlt (g_price (snd x)) (g_price (snd y))) eqn:F2;
        [|apply qlt_false in F2; lra].
      destruct (qlt (g_price (snd z)) (g_price (snd y))) eqn:F3;
        [|apply qlt_false in F3; lra].
      apply tie_equiv_refl.
    + (* y <= z < x *)
      destruct (qlt (g_price (snd y)) (g_price (snd x))) eqn:F1;
        [|apply qlt_false in F1; lra].
      destruct (qlt (g_price (snd z)) (g_price (snd x))) eqn:F2;
        [|apply qlt_false in F2; lra].
      destruct (qlt (g_price (snd z)) (g_price (snd y))) eqn:F3;
        [apply qlt_true in F3; lra|].
      apply tie_equiv_refl.
    + (* z above both *)
      qlt_cases (g_price (snd y)) (g_price (snd x));
        qlt_cases (g_price (snd x)) (g_price (snd y)); try lra.
      * destruct (qlt (g_price (snd z)) (g_price (snd x))) eqn:F1;
          [apply qlt_true in F1; lra|].
        apply tie_equiv_refl.
      * destruct (qlt (g_price (snd z)) (g_price (snd y))) eqn:F1;
          [apply qlt_true in F1; lra|].
        apply tie_equiv_refl.
      * apply te_swap. lra.
Qed.

Lemma sort_by_price_tie l1 l2 :
  Permutation l1 l2 -> tie_equiv (sort_by_price l1) (sort_by_price l2).
Proof.
  induction 1 as [|x l1 l2 _ IH|x y l|l1 l2 l3 _ IH1 _ IH2]; simpl.
  - constructor.
  - apply insert_by_price_tie, IH.
  - apply insert_by_price_comm.
  - eapply te_trans; eassumption.
Qed.

Lemma insert_by_price_sorted x s :
  Sorted price_le s -> Sorted price_le (insert_by_price x s).
Proof.
  induction 1 as [|y s Hs IH Hhd]; simpl.
  - repeat constructor.
  - qlt_cases (g_price (snd y)) (g_price (snd x)).
    + constructor; [exact IH|].
      destruct s as [|z s]; simpl.
      * constructor. unfold price_le. lra.
      * inversion Hhd; subst.
        destruct (qlt (g_price (snd z)) (g_price (snd x)));
          constructor; unfold price_le in *; lra.
    + constructor; [constructor; assumption|].
      constructor. unfold price_le. exact E.
Qed.

Lemma sort_by_price_sorted l : Sorted price_le (sort_by_price l).
Proof.
  induction l as [|x l IH]; simpl; [constructor|].
  apply insert_by_price_sorted, IH.
Qed.

(** ** Claims *)

(** C1 (code_bug).  Cart-wise evaluation is meant to apply no cap when
    [max_discount] is absent, and to take [min(total * pct / 100, cap)]
    otherwise ([cart_wise_discount_formula]).  A coupon created through
    [POST /coupons] without a cap is stored with ["max_discount": None];
    [details.get("max_discount", inf)] then returns [None] and
    [min(30.0, None)] raises [TypeError], in both endpoints. *)
Theorem cart_wise_uncapped_type_error :
  apply_coupon test_customer cart20_nocap 10 = Err TypeError /\
  list_applicable test_customer [cart20_nocap] = Err TypeError.
Proof. split; vm_compute; reflexivity. Qed.

(** C2 (counterexample).  Equal-priced get candidates are not ordered by
    product id: they keep their order in [get_products], so two candidate
    lists with the same entries are visited in different orders. *)
Lemma get_candidates_tie_order_counterexample :
  Permutation (eligible_get tie_cart ["b"; "a"]%string)
              (eligible_get tie_cart ["a"; "b"]%string) /\
  map fst (sort_by_price (eligible_get tie_cart ["b"; "a"]%string)) = ["b"; "a"]%string /\
  map fst (sort_by_price (eligible_get tie_cart ["a"; "b"]%string)) = ["a"; "b"]%string.
Proof.
  split; [vm_compute; apply perm_swap|].
  split; vm_compute; reflexivity.
Qed.

Lemma insert_by_price_filter (p : Q) x s :
  List.filter (price_is p) (insert_by_price x s) = List.filter (price_is p) (x :: s).
Proof.
  induction s as [|y s IH]; [reflexivity|]. cbn [insert_by_price].
  destruct (qlt (g_price (snd y)) (g_price (snd x))) eqn:Ey; [|reflexivity].
  apply qlt_true in Ey. cbn [List.filter]. rewrite IH. cbn [List.filter].
  destruct (price_is p y) eqn:Py, (price_is p x) eqn:Px; try reflexivity.
  unfold price_is in Px, Py. apply Qeq_bool_iff in Px, Py.
  exfalso. assert (Hq : Qeq (g_price (snd y)) (g_price (snd x)))
    by (rewrite Py, Px; reflexivity).
  rewrite Hq in Ey. apply (Qlt_irrefl _ Ey).
Qed.

Lemma sort_by_price_filter (p : Q) l :
  List.filter (price_is p) (sort_by_price l) = List.filter (price_is p) l.
Proof.
  induction l as [|x l IH]; [reflexivity|]. cbn [sort_by_price].
  rewrite insert_by_price_filter. cbn [List.filter]. rewrite IH. reflexivity.
Qed.

Lemma dict_set_fst {V} (k : string) (v : V) (d : list (string * V)) :
  map fst (dict_set k v d) =
    if bool_decide (k ∈ map fst d) then map fst d else map fst d ++ [k].
Proof.
  induction d as [|[k' v'] d IH]; cbn [dict_set map fst].
  - rewrite bool_decide_eq_false_2; [reflexivity|]. apply not_elem_of_nil.
  - destruct (String.eqb_spec k k') as [->|Hne].
    + rewrite bool_decide_eq_true_2; [reflexivity|]. apply elem_of_cons. left. reflexivity.
    + cbn [map fst]. rewrite IH.
      assert (Hiff : k ∈ k' :: map fst d <-> k ∈ map fst d).
      { rewrite elem_of_cons. intuition congruence. }
      destruct (bool_decide (k ∈ map fst d)) eqn:E1;
        [apply bool_decide_eq_true in E1; rewrite bool_decide_eq_true_2 by tauto
        |apply bool_decide_eq_false in E1; rewrite bool_decide_eq_false_2 by tauto];
        reflexivity.
Qed.

Lemma eligible_get_fold_keys (cart : gmap string cart_item) (pids : list string)
    (e : list (string * get_info)) :
  map fst (fold_left (fun eg pid =>
    match cart !! pid with
    | Some it =>
        dict_set pid {| g_quantity := ci_quantity it; g_price := ci_price it |} eg
    | None => eg
    end) pids e) = map fst e ++ first_occurrences_from cart (map fst e) pids.
Proof.
  revert e. induction pids as [|p ps IH]; intros e; cbn [fold_left first_occurrences_from].
  - rewrite app_nil_r. reflexivity.
  - rewrite IH. destruct (cart !! p) as [it|] eqn:Ep.
    + rewrite dict_set_fst.
      destruct (bool_decide (p ∈ map fst e)); [reflexivity|].
      rewrite <- app_assoc. reflexivity.
    + destruct (bool_decide (p ∈ map fst e)); reflexivity.
Qed.

Lemma eligible_get_keys (cart : gmap string cart_item) (pids : list string) :
  map fst (eligible_get cart pids) = first_occurrences cart pids.
Proof. unfold eligible_get. rewrite eligible_get_fold_keys. reflexivity. Qed.

(** C2 (amended).  The get candidates are visited in ascending price
    order, and the sort is stable on price alone: the candidates of each
    price keep their order in the candidate list, which is the order of
    first occurrence of the cart's products in [get_products].  For two
    candidate lists with the same entries, in any order, the allocation
    yields the same discount. *)
Theorem get_candidates_sorted_discount_order_independent
    (pct : Q) (total_get_units : Z) (cart : gmap string cart_item)
    (get_products : list string) (l1 l2 : list (string * get_info)) :
  Permutation l1 l2 ->
  Sorted price_le (sort_by_price l1) /\
  (forall p, List.filter (price_is p) (sort_by_price l1) = List.filter (price_is p) l1) /\
  map fst (eligible_get cart get_products) = first_occurrences cart get_products /\
  Qeq (a_discount (alloc pct total_get_units (sort_by_price l1) astate0))
      (a_discount (alloc pct total_get_units (sort_by_price l2) astate0)).
Proof.
  intros Hp. split; [apply sort_by_price_sorted|].
  split; [intros p; apply sort_by_price_filter|].
  split; [apply eligible_get_keys|].
  rewrite !alloc_eq_nobreak.
  apply alloc_nobreak_tie, sort_by_price_tie, Hp.
Qed.

Lemma get_candidates_sorted_discount_order_independent_witness :
  Permutation (eligible_get tie_cart ["b"; "a"]%string)
              (eligible_get tie_cart ["a"; "b"]%string) /\
  (Sorted price_le (sort_by_price (eligible_get tie_cart ["b"; "a"]%string)) /\
   (forall p, List.filter (price_is p) (sort_by_price (eligible_get tie_cart ["b"; "a"]%string))
              = List.filter (price_is p) (eligible_get tie_cart ["b"; "a"]%string)) /\
   map fst (eligible_get tie_cart ["b"; "a"; "b"; "z"]%string)
     = first_occurrences tie_cart ["b"; "a"; "b"; "z"]%string /\
   Qeq (a_discount (alloc 100 1 (sort_by_price (eligible_get tie_cart ["b"; "a"]%string)) astate0))
       (a_discount (alloc 100 1 (sort_by_price (eligible_get tie_cart ["a"; "b"]%string)) astate0))).
Proof.
  assert (Hp : Permutation (eligible_get tie_cart ["b"; "a"]%string)
                           (eligible_get tie_cart ["a"; "b"]%string))
    by (vm_compute; apply perm_swap).
  exact (conj Hp (get_candidates_sorted_discount_order_independent 100 1 tie_cart
                   ["b"; "a"; "b"; "z"]%string _ _ Hp)).
Defined.

(** C3 (code_bug).  [if details.get("repetition_limit"):] is a truthiness
    test, so a limit of 0 is skipped like an absent one: on the test cart
    BUY2GET1 with [repetition_limit = 0] still gives the discount of 20
    that it gives with limit 1, and [apply_coupon] succeeds with it. *)
Theorem repetition_limit_zero_not_capped :
  ok_eq (bxgy_discount test_cart (buy2get1_details (PyVal 0))) 20 = true /\
  ok_eq (bxgy_discount test_cart (buy2get1_details (PyVal 1))) 20 = true /\
  applied_eq (apply_coupon test_customer buy2get1_rep0 10) 20 = true.
Proof. repeat split; vm_compute; reflexivity. Qed.

(** ** Product-wise evaluation *)

Lemma product_wise_step_ok (cart : gmap string cart_item) (d : product_based)
    (x : Q) (pid : string) :
  pb_min_quantity d <> PyNone ->
  exists y, product_wise_step cart d (Ok x) pid = Ok y /\
    Qeq y (x + per_product_contribution cart d pid)%Q.
Proof.
  intros Hn. unfold product_wise_step, per_product_contribution, min_quantity_of. simpl.
  destruct (cart !! pid) as [it|].
  - destruct (pb_min_quantity d) as [| |m]; [|congruence|];
      match goal with |- context [?a <=? ?b] => destruct (a <=? b) end;
      eexists; (split; [reflexivity|ring]).
  - eexists; split; [reflexivity|ring].
Qed.

Lemma product_wise_fold (cart : gmap string cart_item) (d : product_based)
    (l : list string) (x0 : Q) :
  pb_min_quantity d <> PyNone ->
  exists x, fold_left (product_wise_step cart d) l (Ok x0) = Ok x /\
    Qeq x (x0 + fold_right (fun pid acc => per_product_contribution cart d pid + acc) 0 l)%Q.
Proof.
  intros Hn. revert x0; induction l as [|pid l IH]; intros x0; cbn [fold_left fold_right].
  - exists x0. split; [reflexivity|ring].
  - destruct (product_wise_step_ok cart d x0 pid Hn) as [y [Hy Hyq]].
    rewrite Hy. destruct (IH y) as [x [Hx Hq]].
    exists x. split; [exact Hx|]. rewrite Hq, Hyq. ring.
Qed.

Lemma product_wise_discount_spec (cart : gmap string cart_item) (d : product_based) :
  pb_min_quantity d <> PyNone ->
  exists x, product_wise_discount cart d = Ok x /\ Qeq x (per_product_spec cart d).
Proof.
  intros Hn. destruct (product_wise_fold cart d (pb_product_ids d) 0 Hn) as [x [Hx Hq]].
  exists x. split; [exact Hx|]. rewrite Hq. unfold per_product_spec. ring.
Qed.

Lemma per_product_spec_empty (d : product_based) :
  Qeq (per_product_spec ∅ d) 0.
Proof.
  unfold per_product_spec. induction (pb_product_ids d) as [|pid l IH]; simpl;
    [reflexivity|].
  unfold per_product_contribution. rewrite lookup_empty. rewrite IH. reflexivity.
Qed.

Lemma sum_contributions_split (cart : gmap string cart_item) (d : product_based)
    (p : string) (it : cart_item) (l : list string) :
  cart !! p = Some it -> min_quantity_of d <= ci_quantity it ->
  Qeq (fold_right (fun pid acc => per_product_contribution cart d pid + acc) 0 l)%Q
      (fold_right (fun pid acc => per_product_contribution cart d pid + acc) 0
         (List.filter (fun q => negb (String.eqb q p)) l) +
       inject_Z (Z.of_nat (count_occ String.string_dec l p)) *
       (ci_subtotal it * (pb_discount_percentage d / 100)))%Q.
Proof.
  intros Hp Hq. induction l as [|pid l IH]; cbn [fold_right List.filter count_occ];
    [unfold Qeq; simpl; lia|].
  destruct (String.string_dec pid p) as [->|Hne].
  - rewrite String.eqb_refl. cbn [negb]. rewrite IH.
    unfold per_product_contribution. rewrite Hp.
    destruct (Z.leb_spec (min_quantity_of d) (ci_quantity it)); [|lia].
    rewrite Nat2Z.inj_succ, <- Z.add_1_l, inject_Z_plus. ring.
  - apply String.eqb_neq in Hne as Hb. rewrite Hb. cbn [negb fold_right].
    rewrite IH. ring.
Qed.

(** C4.  The product-wise discount is the sum over [product_ids] of
    [subtotal * pct / 100] for the listed products present in the cart
    with quantity at least [min_quantity] (others add 0), and
    [get_applicable_coupons] lists the coupon, with that discount,
    exactly when the sum is positive.  [min_quantity] is a number or
    absent (default 1). *)
Theorem per_product_discount_is_sum (cust : customer) (c : coupon) (d : product_based) :
  coupon_details c = ProductWise d -> pb_min_quantity d <> PyNone ->
  exists x, product_wise_discount (cart cust) d = Ok x /\
    Qeq x (per_product_spec (cart cust) d) /\
    list_applicable cust [c] = (if qlt 0 x then Ok [(c, x)] else Ok []).
Proof.
  intros Hc Hn. destruct (product_wise_discount_spec (cart cust) d Hn) as [x [Hx Hq]].
  exists x. split; [exact Hx|]. split; [exact Hq|].
  unfold list_applicable, cart_is_empty. case_bool_decide as He.
  - rewrite He in Hq. rewrite per_product_spec_empty in Hq.
    destruct (qlt 0 x) eqn:E; [apply qlt_true in E; lra|reflexivity].
  - simpl. unfold list_step. rewrite Hc. simpl. rewrite Hx. simpl.
    destruct (qlt 0 x); reflexivity.
Qed.

Lemma per_product_discount_is_sum_witness :
  coupon_details prod15 = ProductWise prod15_details /\
  pb_min_quantity prod15_details <> PyNone /\
  exists x, product_wise_discount (cart test_customer) prod15_details = Ok x /\
    Qeq x (per_product_spec (cart test_customer) prod15_details) /\
    list_applicable test_customer [prod15] = (if qlt 0 x then Ok [(prod15, x)] else Ok []).
Proof.
  assert (H1 : coupon_details prod15 = ProductWise prod15_details) by reflexivity.
  assert (H2 : pb_min_quantity prod15_details <> PyNone) by (vm_compute; congruence).
  split; [exact H1|]. split; [exact H2|].
  exact (per_product_discount_is_sum test_customer prod15 prod15_details H1 H2).
Defined.

(** C10.  [product_ids] is iterated as a list: a qualifying product listed
    [k] times adds its contribution [k] times. *)
Theorem per_product_duplicates_multiply (cart : gmap string cart_item)
    (d : product_based) (p : string) (it : cart_item) :
  pb_min_quantity d <> PyNone -> cart !! p = Some it ->
  min_quantity_of d <= ci_quantity it ->
  exists x y,
    product_wise_discount cart d = Ok x /\
    product_wise_discount cart
      (with_product_ids d (List.filter (fun q => negb (String.eqb q p)) (pb_product_ids d))) = Ok y /\
    Qeq x (y + inject_Z (Z.of_nat (count_occ String.string_dec (pb_product_ids d) p)) *
               (ci_subtotal it * (pb_discount_percentage d / 100)))%Q.
Proof.
  intros Hn Hp Hq.
  destruct (product_wise_discount_spec cart d Hn) as [x [Hx Hxq]].
  destruct (product_wise_discount_spec cart
              (with_product_ids d (List.filter (fun q => negb (String.eqb q p)) (pb_product_ids d))) Hn)
    as [y [Hy Hyq]].
  exists x, y. split; [exact Hx|]. split; [exact Hy|].
  rewrite Hxq, Hyq. unfold per_product_spec at 1.
  rewrite (sum_contributions_split cart d p it _ Hp Hq). reflexivity.
Qed.

Lemma per_product_duplicates_multiply_witness :
  pb_min_quantity prod15_dup_details <> PyNone /\
  test_cart !! "p123"%string = Some (mk_item "p123" 2 50) /\
  min_quantity_of prod15_dup_details <= ci_quantity (mk_item "p123" 2 50) /\
  exists x y,
    product_wise_discount test_cart prod15_dup_details = Ok x /\
    product_wise_discount test_cart
      (with_product_ids prod15_dup_details
         (List.filter (fun q => negb (String.eqb q "p123")) (pb_product_ids prod15_dup_details))) = Ok y /\
    Qeq x (y + inject_Z (Z.of_nat (count_occ String.string_dec
                                     (pb_product_ids prod15_dup_details) "p123")) *
               (ci_subtotal (mk_item "p123" 2 50) *
                (pb_discount_percentage prod15_dup_details / 100)))%Q.
Proof.
  assert (H1 : pb_min_quantity prod15_dup_details <> PyNone) by (vm_compute; congruence).
  assert (H2 : test_cart !! "p123"%string = Some (mk_item "p123" 2 50)) by reflexivity.
  assert (H3 : min_quantity_of prod15_dup_details <= ci_quantity (mk_item "p123" 2 50))
    by (vm_compute; congruence).
  split; [exact H1|]. split; [exact H2|]. split; [exact H3|].
  exact (per_product_duplicates_multiply test_cart prod15_dup_details "p123" _ H1 H2 H3).
Defined.

(** ** Allocation invariant *)

Lemma alloc_step_units pct T st c :
  a_units (fst (alloc_step pct T st c)) =
  a_units st + take (g_quantity (snd c)) (T - a_units st).
Proof. apply (alloc_step_effect pct T st c). Qed.

Lemma alloc_states_bounded pct T cs st :
  0 <= a_units st <= T ->
  Forall (fun s => 0 <= a_units s <= T) (alloc_states pct T cs st) /\
  0 <= a_units (alloc pct T cs st) <= T.
Proof.
  revert st; induction cs as [|c cs IH]; intros st Hst; simpl.
  - split; [constructor; [exact Hst | constructor]|exact Hst].
  - assert (Hu := alloc_step_units pct T st c).
    assert (H' : 0 <= a_units (fst (alloc_step pct T st c)) <= T)
      by (rewrite Hu; unfold take; lia).
    destruct (alloc_step pct T st c) as [st' brk]. simpl in H'.
    destruct brk.
    + split; [constructor; [exact Hst|constructor; [exact H'|constructor]]|exact H'].
    + destruct (IH st' H') as [HF Hend].
      split; [constructor; [exact Hst|exact HF]|exact Hend].
Qed.

(** C5.  With [total_get_units >= 0], every state of the allocation loop
    has [0 <= units_discounted <= total_get_units], the final one
    included; one iteration adds [min(available, total_get_units -
    units_discounted)] units when that is positive and nothing otherwise,
    so at most that minimum for a candidate with [available >= 0]. *)
Theorem alloc_units_bounded (pct : Q) (total_get_units : Z)
    (cs : list (string * get_info)) :
  0 <= total_get_units ->
  Forall (fun s => 0 <= a_units s <= total_get_units)
    (alloc_states pct total_get_units cs astate0) /\
  a_units (alloc pct total_get_units cs astate0) <= total_get_units /\
  (forall st c,
     a_units st <= total_get_units -> 0 <= g_quantity (snd c) ->
     0 <= a_units (fst (alloc_step pct total_get_units st c)) - a_units st
       <= Z.min (g_quantity (snd c)) (total_get_units - a_units st)).
Proof.
  intros HT.
  destruct (alloc_states_bounded pct total_get_units cs astate0) as [HF Hend];
    [simpl; lia|].
  split; [exact HF|]. split; [lia|].
  intros st c Hst Hq. rewrite alloc_step_units. unfold take. lia.
Qed.

Lemma alloc_units_bounded_witness :
  0 <= 1 /\
  Forall (fun s => 0 <= a_units s <= 1)
    (alloc_states 100 1 (sort_by_price (eligible_get test_cart ["p789"]%string)) astate0) /\
  a_units (alloc 100 1 (sort_by_price (eligible_get test_cart ["p789"]%string)) astate0) <= 1 /\
  (forall st c,
     a_units st <= 1 -> 0 <= g_quantity (snd c) ->
     0 <= a_units (fst (alloc_step 100 1 st c)) - a_units st
       <= Z.min (g_quantity (snd c)) (1 - a_units st)).
Proof.
  assert (H : 0 <= 1) by lia.
  split; [exact H|].
  exact (alloc_units_bounded 100 1 _ H).
Defined.

(** ** Listing and applying *)

(** C6 (code_bug).  Only the product-wise and buy-X-get-Y branches of
    [get_applicable_coupons] test [discount > 0]; the cart-wise branch
    appends the coupon as soon as the threshold is met.  A threshold-0
    coupon on a cart holding one free item is listed with discount 0,
    while [apply_coupon] rejects the same coupon as not applicable. *)
Theorem cart_wise_listed_with_zero_discount :
  (exists x, list_applicable gift_customer [any_cart10] = Ok [(any_cart10, x)] /\
             Qeq x 0) /\
  apply_coupon gift_customer any_cart10 10 = Err NotApplicable.
Proof.
  split; [|vm_compute; reflexivity].
  exists (0 * (10 / 100))%Q. split; vm_compute; reflexivity.
Qed.

Ltac apply_cases :=
  repeat match goal with
  | |- context [if ?b then _ else _] =>
      let E := fresh "E" in destruct b eqn:E
  | |- context [match ?r with Ok _ => _ | Err _ => _ end] =>
      let E := fresh "E" in destruct r eqn:E
  | |- context [match ?r with Some _ => _ | None => _ end] =>
      let E := fresh "E" in destruct r eqn:E
  | |- context [match ?r with ExNum _ => _ | ExDoc _ => _ end] =>
      let E := fresh "E" in destruct r eqn:E
  end.

(** With a counter [<= 0] an exclusive coupon never succeeds, and once it
    passes the checks with a positive discount it fails with
    [UsageExhausted].  With a positive counter and an id without a dot, a
    successful call stores the counter decremented by one under the id. *)
Lemma exclusive_counter_plain_id (cust : customer) (c : coupon) (now usage : Z) :
  exclusive_coupons cust !! coupon_id c = Some (ExNum usage) ->
  (usage <= 0 ->
     (forall r, apply_coupon cust c now <> Ok r) /\
     (forall discount,
        passes_checks cust c now -> cart_is_empty (cart cust) = false ->
        apply_discount (cart cust) (cart_total (cart cust)) c = Ok discount ->
        Qlt 0 discount ->
        apply_coupon cust c now = Err UsageExhausted)) /\
  (0 < usage -> split_dots (coupon_id c) = [coupon_id c] ->
     forall dec cust', apply_coupon cust c now = Ok (dec, cust') ->
     exclusive_coupons cust' =
       <[coupon_id c := ExNum (usage - 1)]> (exclusive_coupons cust)).
Proof.
  intros Hx. split; [intros Hu; split|intros Hu Hs].
  - intros r. unfold apply_coupon. rewrite Hx.
    destruct (usage <=? 0) eqn:Eu; [|apply Z.leb_gt in Eu; lia].
    unfold rbind. apply_cases; discriminate.
  - intros discount [Ha [Hf [Hv Ht]]] He Hd Hp. unfold apply_coupon.
    rewrite Ha, Ht, He, Hd, Hx. simpl.
    destruct (now <? valid_from c) eqn:E1; [apply Z.ltb_lt in E1; lia|]. simpl.
    destruct (valid_until c) as [| |v] eqn:E2; simpl;
      [| |destruct (v <? now) eqn:E3; [apply Z.ltb_lt in E3; specialize (Hv v eq_refl); lia|]];
      (destruct (Qle_bool discount 0) eqn:E4;
         [apply Qle_bool_iff in E4; lra|]);
      destruct (usage <=? 0) eqn:Eu; try (apply Z.leb_gt in Eu; lia); reflexivity.
  - intros dec cust' H. unfold apply_coupon in H. rewrite Hx, Hs in H.
    destruct (usage <=? 0) eqn:Eu; [apply Z.leb_le in Eu; lia|].
    unfold set_exclusive in H. unfold rbind in H. revert H.
    apply_cases; intros H; try discriminate.
    inversion H; subst. reflexivity.
Qed.

(** C7 (code_bug).  The counter check holds: with EXCLUSIVE10 at 0 the
    call fails with [UsageExhausted] although the recomputed discount is
    30.  The decrement does not: [$set] of
    [exclusive_coupons.VIP.10] writes the nested field [VIP.10] of
    [exclusive_coupons] and leaves the counter under the key ["VIP.10"]
    at 2, so the coupon succeeds again and again. *)
Theorem exclusive_dotted_id_not_decremented :
  ok_eq (apply_discount (cart exhausted_customer)
           (cart_total (cart exhausted_customer)) exclusive10) 30 = true /\
  apply_coupon exhausted_customer exclusive10 10 = Err UsageExhausted /\
  match apply_coupon vip_customer vip10 10 with
  | Ok (_, cu1) =>
      exclusive_coupons cu1 !! "VIP.10"%string = Some (ExNum 2) /\
      exclusive_coupons cu1 !! "VIP"%string = Some (ExDoc [("10"%string, ExNum 1)]) /\
      match apply_coupon cu1 vip10 10 with
      | Ok (_, cu2) => exclusive_coupons cu2 !! "VIP.10"%string = Some (ExNum 2)
      | Err _ => False
      end
  | Err _ => False
  end.
Proof.
  split; [vm_compute; reflexivity|].
  split; [vm_compute; reflexivity|].
  vm_compute. exact (conj eq_refl (conj eq_refl eq_refl)).
Qed.




(** ** Bounds on the discount *)

Lemma fold_left_subtotal (l : list cart_item) (a : Q) :
  Qeq (fold_left (fun acc it => acc + ci_subtotal it) l a)%Q (a + sub_sum l)%Q.
Proof.
  revert a; induction l as [|it l IH]; intros a; simpl; [ring|].
  rewrite IH. ring.
Qed.

Lemma sub_sum_perm (l1 l2 : list cart_item) :
  Permutation l1 l2 -> Qeq (sub_sum l1) (sub_sum l2).
Proof.
  induction 1 as [|x l1 l2 _ IH|x y l|l1 l2 l3 _ IH1 _ IH2]; simpl.
  - reflexivity.
  - rewrite IH. reflexivity.
  - ring.
  - rewrite IH1. exact IH2.
Qed.

Lemma cart_total_sum (m : gmap string cart_item) :
  Qeq (cart_total m) (sub_sum (map snd (map_to_list m))).
Proof. unfold cart_total. rewrite fold_left_subtotal. ring. Qed.

Lemma cart_total_delete (m : gmap string cart_item) (k : string) (it : cart_item) :
  m !! k = Some it ->
  Qeq (cart_total m) (ci_subtotal it + cart_total (delete k m))%Q.
Proof.
  intros H. rewrite !cart_total_sum.
  rewrite <- (sub_sum_perm _ _ (Permutation_map snd (map_to_list_delete m k it H))).
  reflexivity.
Qed.

Lemma cart_total_nonneg (m : gmap string cart_item) :
  subtotals_nonneg m -> Qle 0 (cart_total m).
Proof.
  intros H. rewrite cart_total_sum.
  assert (HF : Forall (fun it => Qle 0 (ci_subtotal it)) (map snd (map_to_list m))).
  { apply Forall_forall. intros it Hin. apply list_elem_of_In in Hin.
    apply in_map_iff in Hin as [[k it'] [<- Hin]].
    simpl. apply (H k). apply elem_of_map_to_list. apply list_elem_of_In. exact Hin. }
  induction HF as [|it l Hit _ IH]; simpl; [lra|]. lra.
Qed.

Lemma subtotals_nonneg_delete (m : gmap string cart_item) (k : string) :
  subtotals_nonneg m -> subtotals_nonneg (delete k m).
Proof.
  intros H k' it Hk. apply lookup_delete_Some in Hk as [_ Hk]. exact (H k' it Hk).
Qed.

Lemma well_formed_subtotals (m : gmap string cart_item) :
  cart_well_formed m -> subtotals_nonneg m.
Proof.
  intros H k it Hk. destruct (H k it Hk) as [Hq [Hp Hs]]. rewrite Hs.
  assert (Qle 0 (inject_Z (ci_quantity it))) by (unfold Qle; simpl; lia).
  nra.
Qed.

(** Per-key weights over distinct keys, each at most the key's subtotal,
    sum to at most the cart total. *)
Lemma distinct_keys_sum_le (m : gmap string cart_item) (l : list string)
    (g : string -> Q) :
  NoDup l -> subtotals_nonneg m ->
  (forall k, In k l ->
     match m !! k with
     | Some it => Qle (g k) (ci_subtotal it)
     | None => Qle (g k) 0
     end) ->
  Qle (fold_right (fun k acc => g k + acc) 0 l)%Q (cart_total m).
Proof.
  intros Hnd; revert m; induction Hnd as [|k l Hk Hnd IH]; intros m Hm Hg; simpl.
  - apply cart_total_nonneg, Hm.
  - assert (Hgk := Hg k (or_introl eq_refl)).
    destruct (m !! k) as [it|] eqn:Ek.
    + rewrite (cart_total_delete m k it Ek).
      assert (Hrest : Qle (fold_right (fun k acc => g k + acc) 0 l)%Q
                          (cart_total (delete k m))).
      { apply IH; [apply subtotals_nonneg_delete, Hm|].
        intros k' Hin. assert (Hne : k <> k') by (intros ->; apply Hk; apply list_elem_of_In; exact Hin).
        rewrite lookup_delete_ne by exact Hne. apply Hg. right. exact Hin. }
      lra.
    + assert (Hrest : Qle (fold_right (fun k acc => g k + acc) 0 l)%Q (cart_total m)).
      { apply IH; [exact Hm|]. intros k' Hin. apply Hg. right. exact Hin. }
      lra.
Qed.

Lemma pct_factor (pct : Q) :
  pct_in_range pct -> Qle 0 (pct / 100) /\ Qle (pct / 100) 1.
Proof.
  intros [H1 H2].
  change (pct / 100)%Q with (pct * (1 # 100))%Q. split; lra.
Qed.

Lemma per_product_spec_le_total (cart : gmap string cart_item) (d : product_based) :
  cart_well_formed cart -> pct_in_range (pb_discount_percentage d) ->
  NoDup (pb_product_ids d) ->
  Qle (per_product_spec cart d) (cart_total cart).
Proof.
  intros Hw Hp Hnd. unfold per_product_spec.
  apply distinct_keys_sum_le; [exact Hnd|apply well_formed_subtotals, Hw|].
  intros k _. unfold per_product_contribution.
  destruct (cart !! k) as [it|] eqn:Ek; [|lra].
  assert (Hs := well_formed_subtotals cart Hw k it Ek).
  destruct (pct_factor _ Hp) as [F1 F2].
  destruct (min_quantity_of d <=? ci_quantity it); [|exact Hs].
  set (f := (pb_discount_percentage d / 100)%Q) in *. nra.
Qed.

Lemma insert_by_price_perm x s : Permutation (insert_by_price x s) (x :: s).
Proof.
  induction s as [|y s IH]; simpl; [reflexivity|].
  destruct (qlt (g_price (snd y)) (g_price (snd x))); [|reflexivity].
  rewrite IH. apply perm_swap.
Qed.

Lemma sort_by_price_perm l : Permutation (sort_by_price l) l.
Proof.
  induction l as [|x l IH]; simpl; [reflexivity|].
  rewrite insert_by_price_perm, IH. reflexivity.
Qed.

Lemma candidates_value_perm pct l1 l2 :
  Permutation l1 l2 -> Qeq (candidates_value pct l1) (candidates_value pct l2).
Proof.
  induction 1 as [|x l1 l2 _ IH|x y l|l1 l2 l3 _ IH1 _ IH2]; simpl.
  - reflexivity.
  - rewrite IH. reflexivity.
  - ring.
  - rewrite IH1. exact IH2.
Qed.

Lemma alloc_nobreak_le_value pct T cs st :
  Qle 0 pct -> Forall candidate_nonneg cs ->
  Qle (a_discount (alloc_nobreak pct T cs st)) (a_discount st + candidates_value pct cs)%Q.
Proof.
  intros Hpct HF; revert st; induction HF as [|c cs [Hq Hp] _ IH]; intros st; simpl;
    [lra|].
  specialize (IH (fst (alloc_step pct T st c))).
  destruct (alloc_step_effect pct T st c) as [Hd _]. rewrite Hd in IH. simpl in IH.
  assert (Ht : Qle (inject_Z (take (g_quantity (snd c)) (T - a_units st)))
                   (inject_Z (g_quantity (snd c))))
    by (rewrite <- Zle_Qle; unfold take; lia).
  assert (Hk : Qle 0 (pct / 100)).
  { change (pct / 100)%Q with (pct * (1 # 100))%Q. lra. }
  assert (Hm : Qle (inject_Z (take (g_quantity (snd c)) (T - a_units st)) *
                    g_price (snd c) * (pct / 100))
                   (inject_Z (g_quantity (snd c)) * g_price (snd c) * (pct / 100))).
  { apply Qmult_le_compat_r; [apply Qmult_le_compat_r|]; assumption. }
  lra.
Qed.

Lemma dict_set_in {V} (k : string) (v : V) (d : list (string * V)) k' v' :
  In (k', v') (dict_set k v d) -> (k', v') = (k, v) \/ In (k', v') d.
Proof.
  induction d as [|[k0 v0] d IH]; simpl; [intros [H|[]]; left; congruence|].
  destruct (String.eqb k k0); simpl.
  - intros [H|H]; [left; congruence|right; right; exact H].
  - intros [H|H]; [right; left; exact H|].
    destruct (IH H) as [H'|H']; [left; exact H'|right; right; exact H'].
Qed.

Lemma dict_set_keys {V} (k : string) (v : V) (d : list (string * V)) x :
  In x (map fst (dict_set k v d)) -> x = k \/ In x (map fst d).
Proof.
  intros H. apply in_map_iff in H as [[k' v'] [<- Hin]].
  destruct (dict_set_in k v d k' v' Hin) as [E|E].
  - left. simpl. congruence.
  - right. apply in_map_iff. exists (k', v'). split; [reflexivity|exact E].
Qed.

Lemma dict_set_nodup {V} (k : string) (v : V) (d : list (string * V)) :
  NoDup (map fst d) -> NoDup (map fst (dict_set k v d)).
Proof.
  induction d as [|[k0 v0] d IH]; simpl; intros Hnd.
  - apply NoDup_singleton.
  - inversion Hnd as [|? ? Hn Hnd']; subst.
    destruct (String.eqb k k0) eqn:E; simpl.
    + apply String.eqb_eq in E. subst. constructor; assumption.
    + apply String.eqb_neq in E. constructor; [|apply IH, Hnd'].
      intros Hin. apply list_elem_of_In in Hin.
      destruct (dict_set_keys k v d k0 Hin) as [->|Hin']; [congruence|].
      apply Hn. apply list_elem_of_In. exact Hin'.
Qed.

Lemma eligible_get_props (cart : gmap string cart_item) (pids : list string) :
  NoDup (map fst (eligible_get cart pids)) /\
  Forall (entry_from_cart cart) (eligible_get cart pids).
Proof.
  unfold eligible_get.
  assert (Hgen : forall eg, NoDup (map fst eg) -> Forall (entry_from_cart cart) eg ->
    NoDup (map fst (fold_left (fun eg pid =>
      match cart !! pid with
      | Some it => dict_set pid {| g_quantity := ci_quantity it; g_price := ci_price it |} eg
      | None => eg
      end) pids eg)) /\
    Forall (entry_from_cart cart) (fold_left (fun eg pid =>
      match cart !! pid with
      | Some it => dict_set pid {| g_quantity := ci_quantity it; g_price := ci_price it |} eg
      | None => eg
      end) pids eg)).
  { induction pids as [|pid pids IH]; intros eg Hnd HF; simpl; [split; assumption|].
    destruct (cart !! pid) as [it|] eqn:Ep; apply IH; try assumption.
    - apply dict_set_nodup, Hnd.
    - apply Forall_forall. intros [k gi] Hin. apply list_elem_of_In in Hin.
      destruct (dict_set_in _ _ _ _ _ Hin) as [E|E].
      + inversion E; subst. exists it. split; [exact Ep|reflexivity].
      + rewrite Forall_forall in HF. apply HF. apply list_elem_of_In. exact E. }
  apply Hgen; constructor.
Qed.

Lemma candidates_value_keys (cart : gmap string cart_item) (pct : Q)
    (eg : list (string * get_info)) :
  Forall (entry_from_cart cart) eg ->
  Qeq (candidates_value pct eg)
      (fold_right (fun k acc =>
         (match cart !! k with
          | Some it => inject_Z (ci_quantity it) * ci_price it * (pct / 100)
          | None => 0
          end) + acc) 0 (map fst eg))%Q.
Proof.
  induction 1 as [|[k gi] eg [it [Hk Hgi]] _ IH]; simpl in *; [reflexivity|].
  rewrite Hk, Hgi, IH. reflexivity.
Qed.

Lemma bxgy_discount_le_total (cart : gmap string cart_item) (d : bxgy) (x : Q) :
  cart_well_formed cart -> pct_in_range (bx_discount_percentage d) ->
  bxgy_discount cart d = Ok x -> Qle x (cart_total cart).
Proof.
  intros Hw Hp H.
  assert (Htot := cart_total_nonneg cart (well_formed_subtotals cart Hw)).
  destruct (eligible_get_props cart (bx_get_products d)) as [Hnd HF].
  unfold bxgy_discount in H.
  destruct (eligible_buy cart (bx_buy_products d)) as [|b eb];
    [inversion H; subst; lra|].
  destruct (eligible_get cart (bx_get_products d)) as [|g eg] eqn:Eg;
    [inversion H; subst; lra|].
  destruct (bx_buy_quantity d =? 0); [discriminate|].
  destruct (0 <? _); [|inversion H; subst; lra].
  inversion H; subst x; clear H.
  change (insert_by_price g (sort_by_price eg)) with (sort_by_price (g :: eg)).
  rewrite alloc_eq_nobreak.
  set (cs := g :: eg) in *.
  set (pct := bx_discount_percentage d) in *.
  destruct (pct_factor pct Hp) as [F1 F2].
  assert (Hnn : Forall candidate_nonneg (sort_by_price cs)).
  { apply (Permutation_Forall (Permutation_sym (sort_by_price_perm _))).
    apply Forall_forall. intros c Hin. rewrite Forall_forall in HF.
    destruct (HF c Hin) as [it [Hk Hgi]].
    destruct (Hw _ _ Hk) as [Hq [Hpr _]]. unfold candidate_nonneg. rewrite Hgi.
    simpl. split; assumption. }
  assert (Hpct : Qle 0 pct) by (destruct Hp; lra).
  eapply Qle_trans; [apply (alloc_nobreak_le_value _ _ _ _ Hpct Hnn)|].
  change (a_discount astate0) with 0%Q.
  rewrite (candidates_value_perm pct _ _ (sort_by_price_perm _)).
  rewrite (candidates_value_keys cart pct _ HF).
  rewrite Qplus_0_l.
  apply distinct_keys_sum_le; [exact Hnd|apply well_formed_subtotals, Hw|].
  intros k _. destruct (cart !! k) as [it|] eqn:Ek; [|lra].
  destruct (Hw _ _ Ek) as [Hq [Hpr Hs]]. rewrite Hs.
  assert (Qle 0 (inject_Z (ci_quantity it))) by (unfold Qle; simpl; lia).
  set (f := (pct / 100)%Q) in *.
  set (qq := inject_Z (ci_quantity it)) in *.
  assert (Qle 0 (qq * ci_price it)) by nra.
  nra.
Qed.

Lemma apply_coupon_ok_inv (cust : customer) (c : coupon) (now : Z)
    (dec : decision) (cust' : customer) :
  apply_coupon cust c now = Ok (dec, cust') ->
  exists discount,
    apply_discount (cart cust) (cart_total (cart cust)) c = Ok discount /\
    d_discount_amount dec = discount /\
    d_original_total dec = cart_total (cart cust) /\
    d_final_total dec = Qminus (cart_total (cart cust)) discount.
Proof.
  intros H. unfold apply_coupon, rbind in H. revert H.
  apply_cases; intros H; try discriminate;
    inversion H; subst; eexists; repeat split; eassumption.
Qed.

Lemma apply_discount_le_total (cart : gmap string cart_item) (c : coupon) (x : Q) :
  cart_well_formed cart -> coupon_well_formed c ->
  apply_discount cart (cart_total cart) c = Ok x -> Qle x (cart_total cart).
Proof.
  intros Hw Hc H.
  assert (Htot := cart_total_nonneg cart (well_formed_subtotals cart Hw)).
  unfold coupon_well_formed in Hc. unfold apply_discount in H.
  destruct (coupon_details c) as [d|d|d|t].
  - destruct (pct_factor _ Hc) as [F1 F2].
    destruct (Qle_bool (cb_threshold d) (cart_total cart)); [|inversion H; subst; lra].
    unfold cart_wise_discount in H.
    set (f := (cb_discount_percentage d / 100)%Q) in *.
    assert (Hx : Qle (cart_total cart * f) (cart_total cart)) by nra.
    destruct (cb_max_discount d) as [| |m]; inversion H; subst; [exact Hx|].
    unfold py_min. qlt_cases m (cart_total cart * f)%Q; lra.
  - destruct Hc as [Hp [Hnd Hn]].
    destruct (product_wise_discount_spec cart d Hn) as [y [Hy Hq]].
    rewrite H in Hy. inversion Hy; subst y. rewrite Hq.
    apply per_product_spec_le_total; assumption.
  - destruct Hc as [Hp _]. eapply bxgy_discount_le_total; eassumption.
  - inversion H; subst; lra.
Qed.

(** C9.  For a cart whose lines satisfy [subtotal = quantity * price] with
    nonnegative quantity and price, and a coupon within the spec's
    invariants, a successful [apply_coupon] reports a discount of at most
    the cart total and a final total [original - discount >= 0]. *)
Theorem apply_discount_within_total (cust : customer) (c : coupon) (now : Z)
    (dec : decision) (cust' : customer) :
  cart_well_formed (cart cust) -> coupon_well_formed c ->
  apply_coupon cust c now = Ok (dec, cust') ->
  Qle (d_discount_amount dec) (d_original_total dec) /\
  Qeq (d_final_total dec) (d_original_total dec - d_discount_amount dec)%Q /\
  Qle 0 (d_final_total dec).
Proof.
  intros Hw Hc H.
  destruct (apply_coupon_ok_inv cust c now dec cust' H) as [x [Hx [Hd [Ho Hf]]]].
  assert (Hle := apply_discount_le_total (cart cust) c x Hw Hc Hx).
  rewrite Hd, Ho, Hf. split; [exact Hle|split; [reflexivity|]].
  unfold Qminus. lra.
Qed.

Lemma test_cart_well_formed : cart_well_formed test_cart.
Proof.
  intros k it Hk. apply elem_of_list_to_map_2 in Hk.
  apply list_elem_of_In in Hk. simpl in Hk.
  destruct Hk as [H|[H|[H|[]]]]; inversion H; subst; simpl;
    (split; [lia|split; [lra|reflexivity]]).
Qed.

Lemma apply_discount_within_total_witness :
  cart_well_formed (cart test_customer) /\ coupon_well_formed cart20 /\
  exists r, apply_coupon test_customer cart20 10 = Ok r /\
  Qle (d_discount_amount (fst r)) (d_original_total (fst r)) /\
  Qeq (d_final_total (fst r)) (d_original_total (fst r) - d_discount_amount (fst r))%Q /\
  Qle 0 (d_final_total (fst r)).
Proof.
  assert (H1 : cart_well_formed (cart test_customer)) by exact test_cart_well_formed.
  assert (H2 : coupon_well_formed cart20) by (vm_compute; split; congruence).
  split; [exact H1|]. split; [exact H2|].
  destruct (apply_coupon test_customer cart20 10) as [[dec cust']|e] eqn:E;
    [|vm_compute in E; discriminate].
  exists (dec, cust'). split; [reflexivity|].
  exact (apply_discount_within_total test_customer cart20 10 dec cust' H1 H2 E).
Defined.

(** * Further properties of the service *)

(** ** Coupon management *)

Lemma find_coupon_none (l : list coupon) (id : string) :
  ~ In id (map coupon_id l) -> find_coupon l id = None.
Proof.
  induction l as [|c l IH]; simpl; intros Hn; [reflexivity|].
  destruct (String.eqb_spec (coupon_id c) id) as [E|E]; [tauto|].
  apply IH. tauto.
Qed.

Lemma find_coupon_some (l : list coupon) (id : string) (c : coupon) :
  find_coupon l id = Some c -> coupon_id c = id /\ In c l.
Proof.
  induction l as [|c' l IH]; simpl; [discriminate|].
  destruct (String.eqb_spec (coupon_id c') id) as [E|E].
  - intros H. inversion H; subst. auto.
  - intros H. destruct (IH H). auto.
Qed.

Lemma find_coupon_absent (l : list coupon) (id : string) :
  find_coupon l id = None -> ~ In id (map coupon_id l).
Proof.
  induction l as [|c l IH]; simpl; [tauto|].
  destruct (String.eqb_spec (coupon_id c) id) as [E|E]; [discriminate|].
  intros H [H'|H']; [congruence|exact (IH H H')].
Qed.

Lemma find_coupon_snoc (l : list coupon) (c : coupon) (id : string) :
  find_coupon l id = None ->
  find_coupon (l ++ [c]) id = if String.eqb (coupon_id c) id then Some c else None.
Proof.
  induction l as [|c' l IH]; simpl; intros H; [reflexivity|].
  destruct (String.eqb (coupon_id c') id); [discriminate|exact (IH H)].
Qed.

Lemma find_coupon_app_found (l : list coupon) (c : coupon) (id : string) (c' : coupon) :
  find_coupon l id = Some c' -> find_coupon (l ++ [c]) id = Some c'.
Proof.
  induction l as [|c0 l IH]; simpl; [discriminate|].
  destruct (String.eqb (coupon_id c0) id); [auto|exact IH].
Qed.

(** [create_coupon]: when [get_coupon] already finds the id, the call
    fails with 400 and changes nothing; otherwise it succeeds, [get_coupon]
    then returns the new document for its id and the same answer as
    before for every other id. *)
Theorem create_coupon_then_get (s : store) (c : coupon) :
  match get_coupon s (coupon_id c) with
  | Resp _ => create_coupon s c = (HTTPError 400 "Coupon ID already exists", s)
  | HTTPError _ _ =>
      exists s',
        create_coupon s c = (Resp "Coupon created successfully", s') /\
        get_coupon s' (coupon_id c) = Resp c /\
        (forall id, id <> coupon_id c -> get_coupon s' id = get_coupon s id) /\
        customers s' = customers s
  end.
Proof.
  unfold get_coupon, create_coupon.
  destruct (find_coupon (coupons s) (coupon_id c)) as [c0|] eqn:E; [reflexivity|].
  eexists. split; [reflexivity|]. simpl.
  rewrite (find_coupon_snoc _ _ _ E), String.eqb_refl. split; [reflexivity|].
  split; [|reflexivity].
  intros id Hne. destruct (find_coupon (coupons s) id) as [c1|] eqn:E1.
  - rewrite (find_coupon_app_found _ _ _ _ E1). reflexivity.
  - rewrite (find_coupon_snoc _ _ _ E1).
    destruct (String.eqb_spec (coupon_id c) id); [congruence|reflexivity].
Qed.

(** [create_coupon] keeps the coupon ids of the collection distinct. *)
Theorem create_coupon_keeps_ids_unique (s : store) (c : coupon) :
  NoDup (map coupon_id (coupons s)) ->
  NoDup (map coupon_id (coupons (snd (create_coupon s c)))).
Proof.
  intros Hnd. unfold create_coupon.
  destruct (find_coupon (coupons s) (coupon_id c)) as [c0|] eqn:E; [exact Hnd|].
  simpl. rewrite map_app. simpl.
  apply NoDup_app. split; [exact Hnd|]. split; [|apply NoDup_singleton].
  intros x Hx Hy. apply list_elem_of_In in Hx. apply list_elem_of_In in Hy.
  destruct Hy as [<-|[]]. exact (find_coupon_absent _ _ E Hx).
Qed.

Lemma create_coupon_keeps_ids_unique_witness :
  NoDup (map coupon_id (coupons test_store)) /\
  NoDup (map coupon_id (coupons (snd (create_coupon test_store cart20_nocap)))).
Proof.
  assert (H : NoDup (map coupon_id (coupons test_store))).
  { apply (bool_decide_unpack _). vm_compute. reflexivity. }
  split; [exact H|exact (create_coupon_keeps_ids_unique test_store cart20_nocap H)].
Defined.

Lemma delete_first_found (l : list coupon) (id : string) :
  find_coupon l id = None <-> delete_first id l = None.
Proof.
  induction l as [|c l IH]; simpl; [tauto|].
  destruct (String.eqb (coupon_id c) id); [split; discriminate|].
  rewrite IH. destruct (delete_first id l); simpl; split; congruence.
Qed.

Lemma delete_first_spec (l l' : list coupon) (id : string) :
  delete_first id l = Some l' -> NoDup (map coupon_id l) ->
  find_coupon l' id = None /\
  (forall id', id' <> id -> find_coupon l' id' = find_coupon l id') /\
  NoDup (map coupon_id l') /\
  (forall x, In x (map coupon_id l') -> In x (map coupon_id l)).
Proof.
  revert l'; induction l as [|c l IH]; intros l'; simpl; [discriminate|].
  intros Hd Hnd. inversion Hnd as [|? ? Hn Hnd']; subst.
  destruct (String.eqb_spec (coupon_id c) id) as [E|E].
  - inversion Hd; subst l'. rewrite <- E.
    split; [apply find_coupon_none; intros H; apply Hn, list_elem_of_In, H|].
    split; [|split; [exact Hnd'|intros x Hx; right; exact Hx]].
    intros id' Hne. destruct (String.eqb_spec (coupon_id c) id'); [congruence|reflexivity].
  - destruct (delete_first id l) as [l0|] eqn:El; [|discriminate].
    simpl in Hd. inversion Hd; subst l'.
    destruct (IH l0 eq_refl Hnd') as [H1 [H2 [H3 H4]]].
    simpl. destruct (String.eqb_spec (coupon_id c) id) as [E'|E']; [congruence|].
    split; [exact H1|]. split.
    + intros id' Hne. rewrite (H2 id' Hne). reflexivity.
    + split; [|intros x [Hx|Hx]; [left; exact Hx|right; exact (H4 x Hx)]].
      constructor; [|exact H3].
      intros Hin. apply list_elem_of_In in Hin. apply Hn, list_elem_of_In, H4, Hin.
Qed.

(** [delete_coupon] on a collection with distinct coupon ids: for an id
    [get_coupon] does not find, a 404 that changes nothing; otherwise the
    call succeeds, [get_coupon] then answers 404 for that id and as before
    for every other id, and the ids stay distinct. *)
Theorem delete_coupon_then_get (s : store) (id : string) :
  NoDup (map coupon_id (coupons s)) ->
  match get_coupon s id with
  | HTTPError _ _ => delete_coupon s id = (HTTPError 404 "Coupon not found", s)
  | Resp _ =>
      exists s',
        delete_coupon s id = (Resp "Coupon deleted successfully", s') /\
        get_coupon s' id = HTTPError 404 "Coupon not found" /\
        (forall id', id' <> id -> get_coupon s' id' = get_coupon s id') /\
        NoDup (map coupon_id (coupons s'))
  end.
Proof.
  intros Hnd. unfold get_coupon, delete_coupon.
  destruct (find_coupon (coupons s) id) as [c|] eqn:E.
  - destruct (delete_first id (coupons s)) as [l'|] eqn:Ed.
    + destruct (delete_first_spec _ _ _ Ed Hnd) as [H1 [H2 [H3 _]]].
      eexists. split; [reflexivity|]. simpl. rewrite H1.
      split; [reflexivity|]. split; [|exact H3].
      intros id' Hne. rewrite (H2 id' Hne). reflexivity.
    + apply delete_first_found in Ed. congruence.
  - apply delete_first_found in E. rewrite E. reflexivity.
Qed.

Lemma delete_coupon_then_get_witness :
  NoDup (map coupon_id (coupons test_store)) /\
  exists s',
    delete_coupon test_store "CART20" = (Resp "Coupon deleted successfully", s') /\
    get_coupon s' "CART20" = HTTPError 404 "Coupon not found" /\
    (forall id', id' <> "CART20"%string -> get_coupon s' id' = get_coupon test_store id') /\
    NoDup (map coupon_id (coupons s')).
Proof.
  assert (H : NoDup (map coupon_id (coupons test_store))).
  { apply (bool_decide_unpack _). vm_compute. reflexivity. }
  split; [exact H|].
  exact (delete_coupon_then_get test_store "CART20" H).
Defined.

(** ** Listing and applying, end to end *)

Lemma insert_desc_perm x s : Permutation (insert_desc x s) (x :: s).
Proof.
  induction s as [|y s IH]; simpl; [reflexivity|].
  destruct (qlt (snd x) (snd y)); [|reflexivity].
  rewrite IH. apply perm_swap.
Qed.

Lemma sort_desc_perm l : Permutation (sort_desc l) l.
Proof.
  induction l as [|x l IH]; simpl; [reflexivity|].
  rewrite insert_desc_perm, IH. reflexivity.
Qed.

Lemma insert_desc_sorted x s :
  Sorted disc_ge s -> Sorted disc_ge (insert_desc x s).
Proof.
  induction 1 as [|y s Hs IH Hhd]; simpl.
  - repeat constructor.
  - qlt_cases (snd x) (snd y).
    + constructor; [exact IH|].
      destruct s as [|z s]; simpl.
      * constructor. unfold disc_ge. lra.
      * inversion Hhd; subst.
        destruct (qlt (snd x) (snd z)); constructor; unfold disc_ge in *; lra.
    + constructor; [constructor; assumption|].
      constructor. unfold disc_ge. exact E.
Qed.

Lemma sort_desc_sorted l : Sorted disc_ge (sort_desc l).
Proof.
  induction l as [|x l IH]; simpl; [constructor|].
  apply insert_desc_sorted, IH.
Qed.

Lemma list_fold_err total m l e :
  fold_left (list_step total m) l (Err e) = Err e.
Proof. induction l as [|c l IH]; simpl; [reflexivity|exact IH]. Qed.

Lemma list_step_entries total m acc c acc' :
  list_step total m (Ok acc) c = Ok acc' ->
  forall c' x, In (c', x) acc' ->
    In (c', x) acc \/ (c' = c /\ apply_discount m total c = Ok x).
Proof.
  unfold list_step, apply_discount. simpl.
  destruct (coupon_details c) as [d|d|d|t].
  - destruct (Qle_bool (cb_threshold d) total); [|intros H; inversion H; subst; auto].
    destruct (cart_wise_discount total d) as [x|e]; simpl; [|discriminate].
    intros H; inversion H; subst. intros c' x' Hin.
    apply in_app_or in Hin as [Hin|[Hin|[]]]; [auto|inversion Hin; subst; auto].
  - destruct (product_wise_discount m d) as [x|e]; simpl; [|discriminate].
    destruct (qlt 0 x); intros H; inversion H; subst; [|auto].
    intros c' x' Hin.
    apply in_app_or in Hin as [Hin|[Hin|[]]]; [auto|inversion Hin; subst; auto].
  - destruct (bxgy_discount m d) as [x|e]; simpl; [|discriminate].
    destruct (qlt 0 x); intros H; inversion H; subst; [|auto].
    intros c' x' Hin.
    apply in_app_or in Hin as [Hin|[Hin|[]]]; [auto|inversion Hin; subst; auto].
  - intros H; inversion H; subst; auto.
Qed.

Lemma list_fold_entries total m l acc r :
  fold_left (list_step total m) l (Ok acc) = Ok r ->
  forall c x, In (c, x) r ->
    In (c, x) acc \/ (In c l /\ apply_discount m total c = Ok x).
Proof.
  revert acc; induction l as [|c0 l IH]; intros acc; cbn [fold_left In].
  - intros H; inversion H; subst; auto.
  - destruct (list_step total m (Ok acc) c0) as [acc'|e] eqn:Es;
      [|rewrite list_fold_err; discriminate].
    intros H c x Hin. destruct (IH acc' H c x Hin) as [Hin'|[Hl Ha]]; [|auto].
    destruct (list_step_entries _ _ _ _ _ Es c x Hin') as [H'|[-> Ha]]; auto.
Qed.

(** Each entry of a successful [get_applicable_coupons] answer: a coupon
    of the collection that matches the query for the customer, with the
    discount [apply_coupon] recomputes. *)
Lemma listed_entry (s : store) (cid : string) (cu : customer) (now : Z)
    (l : list (coupon * Q)) :
  customers s !! cid = Some cu ->
  get_applicable_coupons s cid now = Resp (Ok l) ->
  Sorted disc_ge l /\
  forall c x, In (c, x) l ->
    In c (coupons s) /\ coupon_query now (customer_tier cu) c = true /\
    cart_is_empty (cart cu) = false /\
    apply_discount (cart cu) (cart_total (cart cu)) c = Ok x.
Proof.
  intros Hc H. unfold get_applicable_coupons in H. rewrite Hc in H.
  inversion H as [Hl]. clear H. unfold list_applicable in Hl.
  destruct (cart_is_empty (cart cu)) eqn:Ee.
  - inversion Hl; subst. split; [constructor|intros c x []].
  - destruct (fold_left _ _ (Ok [])) as [r|e] eqn:Ef; simpl in Hl; [|discriminate].
    inversion Hl; subst l. split; [apply sort_desc_sorted|].
    intros c x Hin.
    apply (Permutation_in _ (sort_desc_perm r)) in Hin.
    destruct (list_fold_entries _ _ _ _ _ Ef c x Hin) as [[]|[Hm Ha]].
    apply filter_In in Hm as [Hm Hq]. auto.
Qed.

(** [get_applicable_coupons] answers with coupons of the collection,
    highest discount first, each of them active, already valid, not
    expired and listing the customer's tier in [user_tiers] (a coupon
    without [user_tiers] is never listed). *)
Theorem applicable_coupons_sorted_and_matching (s : store) (cid : string) (cu : customer)
    (now : Z) (l : list (coupon * Q)) :
  customers s !! cid = Some cu ->
  get_applicable_coupons s cid now = Resp (Ok l) ->
  Sorted (fun a b => Qle (snd b) (snd a)) l /\
  forall c x, In (c, x) l ->
    In c (coupons s) /\ is_active c = true /\ valid_from c <= now /\
    (forall u, valid_until c = PyVal u -> now <= u) /\
    exists ts, user_tiers c = PyVal ts /\ In (customer_tier cu) ts.
Proof.
  intros Hc H. destruct (listed_entry s cid cu now l Hc H) as [Hs Hin].
  split; [exact Hs|].
  intros c x Hx. destruct (Hin c x Hx) as [Hm [Hq _]].
  unfold coupon_query in Hq.
  apply andb_prop in Hq as [Hq Ht]. apply andb_prop in Hq as [Hq Hu].
  apply andb_prop in Hq as [Ha Hf]. apply Z.leb_le in Hf.
  split; [exact Hm|]. split; [exact Ha|]. split; [exact Hf|].
  split.
  - intros u Eu. rewrite Eu in Hu. apply Z.leb_le, Hu.
  - destruct (user_tiers c) as [| |ts]; try discriminate.
    exists ts. split; [reflexivity|].
    apply bool_decide_eq_true in Ht. apply list_elem_of_In, Ht.
Qed.

Lemma applicable_coupons_sorted_and_matching_witness :
  (customers test_store !! "c1"%string = Some test_customer /\
   get_applicable_coupons test_store "c1" 10 = Resp (Ok test_listing)) /\
  Sorted (fun a b => Qle (snd b) (snd a)) test_listing /\
  forall c x, In (c, x) test_listing ->
    In c (coupons test_store) /\ is_active c = true /\ valid_from c <= 10 /\
    (forall u, valid_until c = PyVal u -> 10 <= u) /\
    exists ts, user_tiers c = PyVal ts /\ In (customer_tier test_customer) ts.
Proof.
  assert (H1 : customers test_store !! "c1"%string = Some test_customer) by reflexivity.
  assert (H2 : get_applicable_coupons test_store "c1" 10 = Resp (Ok test_listing))
    by (vm_compute; reflexivity).
  split; [split; assumption|].
  exact (applicable_coupons_sorted_and_matching test_store "c1" test_customer 10
           test_listing H1 H2).
Defined.

Lemma find_coupon_unique (l : list coupon) (c : coupon) :
  NoDup (map coupon_id l) -> In c l -> find_coupon l (coupon_id c) = Some c.
Proof.
  induction l as [|c0 l IH]; intros Hn Hin; [destruct Hin|].
  inversion Hn as [|? ? Hn0 Hn1]; subst. unfold find_coupon. simpl.
  destruct (String.eqb_spec (coupon_id c0) (coupon_id c)) as [Heq|Hne].
  - destruct Hin as [->|Hin]; [reflexivity|].
    exfalso. apply Hn0. rewrite Heq. apply list_elem_of_In, in_map. exact Hin.
  - destruct Hin as [->|Hin]; [congruence|]. apply IH; assumption.
Qed.

(** A coupon [get_applicable_coupons] lists with a positive discount is
    accepted by the [apply-coupon] endpoint at the same time, under its
    id, with the same discount, when coupon ids are unique in the
    collection and the exclusive-coupon step lets it through. *)
Theorem listed_coupon_applies (s : store) (cid : string) (cu : customer) (now : Z)
    (l : list (coupon * Q)) (c : coupon) (x : Q) :
  customers s !! cid = Some cu ->
  NoDup (map coupon_id (coupons s)) ->
  get_applicable_coupons s cid now = Resp (Ok l) ->
  In (c, x) l -> Qlt 0 x ->
  exclusive_passes cu (coupon_id c) ->
  exists dec s', apply_coupon_at s cid (coupon_id c) now = (Resp (Ok dec), s') /\
                 d_discount_amount dec = x.
Proof.
  intros Hc Hn H Hin Hx Hex. destruct (listed_entry s cid cu now l Hc H) as [_ Hl].
  destruct (Hl c x Hin) as [Hcs [Hq [He Ha]]].
  assert (Hap : exists dec cu', apply_coupon cu c now = Ok (dec, cu') /\
                                d_discount_amount dec = x).
  { unfold coupon_query in Hq.
    apply andb_prop in Hq as [Hq Ht]. apply andb_prop in Hq as [Hq Hu].
    apply andb_prop in Hq as [Hact Hf]. apply Z.leb_le in Hf.
    unfold apply_coupon. rewrite Hact. simpl.
    destruct (Z.ltb_spec now (valid_from c)); [lia|]. simpl.
    assert (Hv : match valid_until c with PyVal u => u <? now | _ => false end = false).
    { destruct (valid_until c) as [| |u]; [reflexivity|reflexivity|].
      apply Z.leb_le in Hu. apply Z.ltb_ge. exact Hu. }
    rewrite Hv.
    destruct (user_tiers c) as [| |ts]; try discriminate. simpl. rewrite Ht. simpl.
    rewrite He, Ha. simpl.
    assert (Hb : Qle_bool x 0 = false).
    { destruct (Qle_bool x 0) eqn:E; [|reflexivity]. apply Qle_bool_iff in E. lra. }
    rewrite Hb. unfold exclusive_passes in Hex.
    destruct (exclusive_coupons cu !! coupon_id c) as [[u|d]|].
    - destruct Hex as [Hu0 [ex Hs]]. rewrite Hs.
      destruct (Z.leb_spec u 0); [lia|]. do 2 eexists. split; reflexivity.
    - destruct Hex.
    - do 2 eexists. split; reflexivity. }
  destruct Hap as [dec [cu' [Hap Hd]]].
  exists dec, (set_customers s (<[cid := cu']> (customers s))). split; [|exact Hd].
  unfold apply_coupon_at. rewrite Hc, (find_coupon_unique _ _ Hn Hcs), Hap. reflexivity.
Qed.

Lemma listed_coupon_applies_witness :
  (customers test_store !! "c1"%string = Some test_customer /\
   NoDup (map coupon_id (coupons test_store)) /\
   get_applicable_coupons test_store "c1" 10 = Resp (Ok test_listing) /\
   In test_top test_listing /\ Qlt 0 (snd test_top) /\
   exclusive_passes test_customer (coupon_id (fst test_top))) /\
  exists dec s', apply_coupon_at test_store "c1" (coupon_id (fst test_top)) 10
                   = (Resp (Ok dec), s') /\
                 d_discount_amount dec = snd test_top.
Proof.
  assert (H1 : customers test_store !! "c1"%string = Some test_customer) by reflexivity.
  assert (H0 : NoDup (map coupon_id (coupons test_store)))
    by (apply (bool_decide_unpack _); vm_compute; reflexivity).
  assert (H2 : get_applicable_coupons test_store "c1" 10 = Resp (Ok test_listing))
    by (vm_compute; reflexivity).
  assert (H3 : In test_top test_listing) by (vm_compute; left; reflexivity).
  assert (H4 : Qlt 0 (snd test_top)) by (vm_compute; reflexivity).
  assert (H5 : exclusive_passes test_customer (coupon_id (fst test_top)))
    by (vm_compute; exact I).
  split; [exact (conj H1 (conj H0 (conj H2 (conj H3 (conj H4 H5)))))|].
  exact (listed_coupon_applies test_store "c1" test_customer 10 test_listing
           (fst test_top) (snd test_top) H1 H0 H2 H3 H4 H5).
Defined.

Lemma set_exclusive_other (path : list string) (v : exval) (m m' : gmap string exval) :
  set_exclusive path v m = Some m' ->
  forall k, k <> hd ""%string path -> m' !! k = m !! k.
Proof.
  unfold set_exclusive. intros H k Hk.
  destruct (forallb path_component_ok path); cbn [negb] in H; [|discriminate].
  destruct path as [|k0 [|k1 p]]; cbn [hd] in Hk; [discriminate| |].
  - injection H as <-. apply lookup_insert_ne. congruence.
  - destruct (m !! k0) as [[z|d]|]; [discriminate| |].
    + destruct (doc_set (k1 :: p) v d); cbn [option_map] in H; [|discriminate].
      injection H as <-. apply lookup_insert_ne. congruence.
    + injection H as <-. apply lookup_insert_ne. congruence.
Qed.

(** A successful [apply_coupon] leaves the cart and the tier as they are,
    appends exactly the returned summary to [coupon_history], changes no
    entry of [exclusive_coupons] but the one named by the coupon id up to
    its first dot (the whole id when it has no dot), and its summary
    records the
    coupon, the cart total, a positive discount and
    [final_total = original_total - discount]. *)
Theorem apply_coupon_records_history (cust : customer) (c : coupon) (now : Z)
    (dec : decision) (cust' : customer) :
  apply_coupon cust c now = Ok (dec, cust') ->
  cart cust' = cart cust /\ tier cust' = tier cust /\
  coupon_history cust' = coupon_history cust ++ [dec] /\
  (forall k, k <> hd ""%string (split_dots (coupon_id c)) ->
     exclusive_coupons cust' !! k = exclusive_coupons cust !! k) /\
  d_coupon_id dec = coupon_id c /\ d_coupon_type dec = coupon_type c /\
  d_original_total dec = cart_total (cart cust) /\ Qlt 0 (d_discount_amount dec) /\
  Qeq (d_final_total dec) (d_original_total dec - d_discount_amount dec)%Q.
Proof.
  intros H. unfold apply_coupon, rbind in H. revert H.
  apply_cases; intros H; try discriminate; inversion H; subst; clear H;
    (repeat split; simpl; try reflexivity);
    try (apply Qnot_le_lt; intros Hle; apply Qle_bool_iff in Hle; congruence).
  - eapply set_exclusive_other; eassumption.
Qed.

Lemma apply_coupon_records_history_witness :
  exists dec cust',
    apply_coupon test_customer cart20 10 = Ok (dec, cust') /\
    cart cust' = cart test_customer /\ tier cust' = tier test_customer /\
    coupon_history cust' = coupon_history test_customer ++ [dec] /\
    (forall k, k <> hd ""%string (split_dots (coupon_id cart20)) ->
       exclusive_coupons cust' !! k = exclusive_coupons test_customer !! k) /\
    d_coupon_id dec = coupon_id cart20 /\ d_coupon_type dec = coupon_type cart20 /\
    d_original_total dec = cart_total (cart test_customer) /\
    Qlt 0 (d_discount_amount dec) /\
    Qeq (d_final_total dec) (d_original_total dec - d_discount_amount dec)%Q.
Proof.
  destruct (apply_coupon test_customer cart20 10) as [[dec cust']|e] eqn:E;
    [|vm_compute in E; discriminate].
  exists dec, cust'. split; [reflexivity|].
  exact (apply_coupon_records_history test_customer cart20 10 dec cust' E).
Defined.

(** ** Buy-X-get-Y: limits, duplicates, zero quantities *)

Lemma alloc_nobreak_nonneg pct T cs st :
  Qle 0 pct -> Forall candidate_nonneg cs -> Qle 0 (a_discount st) ->
  Qle 0 (a_discount (alloc_nobreak pct T cs st)).
Proof.
  intros Hpct HF; revert st; induction HF as [|c cs [Hq Hp] _ IH]; intros st Hst;
    simpl; [exact Hst|].
  apply IH. destruct (alloc_step_effect pct T st c) as [Hd _]. rewrite Hd. simpl.
  assert (Ht : Qle 0 (inject_Z (take (g_quantity (snd c)) (T - a_units st))))
    by (unfold Qle; simpl; unfold take; lia).
  assert (Hk : Qle 0 (pct / 100)).
  { change (pct / 100)%Q with (pct * (1 # 100))%Q. lra. }
  assert (Qle 0 (inject_Z (take (g_quantity (snd c)) (T - a_units st)) * g_price (snd c)))
    by (apply Qmult_le_0_compat; assumption).
  assert (Qle 0 (inject_Z (take (g_quantity (snd c)) (T - a_units st)) * g_price (snd c) *
                 (pct / 100))) by (apply Qmult_le_0_compat; assumption).
  lra.
Qed.

(** With more units to give away, the allocation loop never gives less:
    both runs have handed out [min(T, S)] units of the candidates so far. *)
Lemma alloc_nobreak_mono pct T1 T2 S cs s1 s2 :
  Qle 0 pct -> Forall candidate_nonneg cs -> 0 <= S -> T1 <= T2 ->
  a_units s1 = Z.min T1 S -> a_units s2 = Z.min T2 S ->
  Qle (a_discount s1) (a_discount s2) ->
  Qle (a_discount (alloc_nobreak pct T1 cs s1)) (a_discount (alloc_nobreak pct T2 cs s2)).
Proof.
  intros Hpct HF; revert S s1 s2; induction HF as [|c cs [Hq Hp] _ IH];
    intros S s1 s2 HS HT Hu1 Hu2 Hd; simpl; [exact Hd|].
  destruct (alloc_step_effect pct T1 s1 c) as [Hd1 Hu1'].
  destruct (alloc_step_effect pct T2 s2 c) as [Hd2 Hu2'].
  simpl in Hd1, Hu1', Hd2, Hu2'.
  apply (IH (S + g_quantity (snd c))); [lia|exact HT| | |].
  - rewrite Hu1', Hu1. unfold take. lia.
  - rewrite Hu2', Hu2. unfold take. lia.
  - rewrite Hd1, Hd2.
    set (k1 := take (g_quantity (snd c)) (T1 - a_units s1)).
    set (k2 := take (g_quantity (snd c)) (T2 - a_units s2)).
    assert (Hk : k1 <= k2) by (unfold k1, k2, take; rewrite Hu1, Hu2; lia).
    assert (Hkq : Qle (inject_Z k1) (inject_Z k2)) by (rewrite <- Zle_Qle; exact Hk).
    assert (Hf : Qle 0 (pct / 100)).
    { change (pct / 100)%Q with (pct * (1 # 100))%Q. lra. }
    assert (Hm : Qle (inject_Z k1 * g_price (snd c) * (pct / 100))
                     (inject_Z k2 * g_price (snd c) * (pct / 100))).
    { apply Qmult_le_compat_r; [apply Qmult_le_compat_r|]; assumption. }
    lra.
Qed.

Lemma eligible_get_nonneg (cart : gmap string cart_item) (pids : list string) :
  cart_well_formed cart -> Forall candidate_nonneg (eligible_get cart pids).
Proof.
  intros Hw. destruct (eligible_get_props cart pids) as [_ HF].
  apply Forall_forall. intros c Hin. rewrite Forall_forall in HF.
  destruct (HF c Hin) as [it [Hk Hgi]].
  destruct (Hw _ _ Hk) as [Hq [Hpr _]]. unfold candidate_nonneg. rewrite Hgi.
  simpl. split; assumption.
Qed.

(** Raising a positive [repetition_limit] never lowers the buy-X-get-Y
    discount, for a well-formed cart, a nonnegative percentage and a
    nonnegative [get_quantity]. *)
Theorem bxgy_repetition_limit_monotone (cart : gmap string cart_item) (d : bxgy)
    (r1 r2 : Z) (x1 x2 : Q) :
  cart_well_formed cart -> Qle 0 (bx_discount_percentage d) -> 0 <= bx_get_quantity d ->
  0 < r1 <= r2 ->
  bxgy_discount cart (with_repetition_limit d (PyVal r1)) = Ok x1 ->
  bxgy_discount cart (with_repetition_limit d (PyVal r2)) = Ok x2 ->
  Qle x1 x2.
Proof.
  intros Hw Hpct Hg Hr H1 H2.
  assert (HF := eligible_get_nonneg cart (bx_get_products d) Hw).
  unfold bxgy_discount, with_repetition_limit in H1, H2.
  cbn [bx_buy_products bx_get_products bx_buy_quantity bx_get_quantity
       bx_discount_percentage bx_repetition_limit] in H1, H2.
  destruct (eligible_buy cart (bx_buy_products d)) as [|b eb];
    [inversion H1; inversion H2; subst; lra|].
  destruct (eligible_get cart (bx_get_products d)) as [|g eg] eqn:Eg;
    [inversion H1; inversion H2; subst; lra|].
  destruct (bx_buy_quantity d =? 0); [discriminate|].
  unfold cap_buy_units in H1, H2.
  destruct (Z.eqb_spec r1 0) as [E1|_]; [lia|].
  destruct (Z.eqb_spec r2 0) as [E2|_]; [lia|].
  set (bu := fold_left Z.add (map snd (b :: eb)) 0 / bx_buy_quantity d) in *.
  change (insert_by_price g (sort_by_price eg)) with (sort_by_price (g :: eg)) in H1, H2.
  assert (Hs : Forall candidate_nonneg (sort_by_price (g :: eg)))
    by exact (Permutation_Forall (Permutation_sym (sort_by_price_perm _)) HF).
  destruct (Z.ltb_spec 0 (Z.min bu r1)) as [P1|P1];
    destruct (Z.ltb_spec 0 (Z.min bu r2)) as [P2|P2];
    inversion H1; inversion H2; subst x1 x2; clear H1 H2.
  - rewrite !alloc_eq_nobreak.
    apply (alloc_nobreak_mono _ _ _ 0); [exact Hpct|exact Hs|lia|nia|simpl; nia|simpl; nia|].
    simpl. lra.
  - lia.
  - rewrite alloc_eq_nobreak. apply alloc_nobreak_nonneg; [exact Hpct|exact Hs|].
    simpl. lra.
  - lra.
Qed.

Lemma bxgy_repetition_limit_monotone_witness :
  (cart_well_formed test_cart /\ Qle 0 (bx_discount_percentage (buy2get1_details Missing)) /\
   0 <= bx_get_quantity (buy2get1_details Missing) /\ 0 < 1 <= 2 /\
   bxgy_discount test_cart (with_repetition_limit (buy2get1_details Missing) (PyVal 1)) =
     Ok (result_value (bxgy_discount test_cart
           (with_repetition_limit (buy2get1_details Missing) (PyVal 1)))) /\
   bxgy_discount test_cart (with_repetition_limit (buy2get1_details Missing) (PyVal 2)) =
     Ok (result_value (bxgy_discount test_cart
           (with_repetition_limit (buy2get1_details Missing) (PyVal 2))))) /\
  Qle (result_value (bxgy_discount test_cart
         (with_repetition_limit (buy2get1_details Missing) (PyVal 1))))
      (result_value (bxgy_discount test_cart
         (with_repetition_limit (buy2get1_details Missing) (PyVal 2)))).
Proof.
  assert (H1 : Qle 0 (bx_discount_percentage (buy2get1_details Missing)))
    by (unfold Qle; simpl; lia).
  assert (H2 : 0 <= bx_get_quantity (buy2get1_details Missing)) by (simpl; lia).
  assert (H3 : 0 < 1 <= 2) by lia.
  assert (H4 : bxgy_discount test_cart (with_repetition_limit (buy2get1_details Missing) (PyVal 1)) =
     Ok (result_value (bxgy_discount test_cart
           (with_repetition_limit (buy2get1_details Missing) (PyVal 1)))))
    by (vm_compute; reflexivity).
  assert (H5 : bxgy_discount test_cart (with_repetition_limit (buy2get1_details Missing) (PyVal 2)) =
     Ok (result_value (bxgy_discount test_cart
           (with_repetition_limit (buy2get1_details Missing) (PyVal 2)))))
    by (vm_compute; reflexivity).
  split; [exact (conj test_cart_well_formed (conj H1 (conj H2 (conj H3 (conj H4 H5)))))|].
  exact (bxgy_repetition_limit_monotone test_cart (buy2get1_details Missing) 1 2 _ _
           test_cart_well_formed H1 H2 H3 H4 H5).
Defined.

Lemma dict_set_keeps_keys {V} (k : string) (v : V) (d : list (string * V)) x :
  In x (map fst d) -> In x (map fst (dict_set k v d)).
Proof.
  induction d as [|[k0 v0] d IH]; simpl; [tauto|].
  destruct (String.eqb_spec k k0) as [->|_]; simpl; intros [H|H]; auto.
Qed.

Lemma dict_set_has_key {V} (k : string) (v : V) (d : list (string * V)) :
  In k (map fst (dict_set k v d)).
Proof.
  induction d as [|[k0 v0] d IH]; simpl; [auto|].
  destruct (String.eqb_spec k k0); simpl; auto.
Qed.

Lemma dict_set_present {V} (k : string) (v : V) (d : list (string * V)) :
  NoDup (map fst d) -> In (k, v) d -> dict_set k v d = d.
Proof.
  induction d as [|[k0 v0] d IH]; simpl; [intros _ []|].
  intros Hnd Hin. inversion Hnd as [|? ? Hn Hnd']; subst.
  destruct (String.eqb_spec k k0) as [->|Hne].
  - destruct Hin as [E|E]; [inversion E; subst; reflexivity|].
    exfalso. apply Hn, list_elem_of_In, in_map_iff. exists (k0, v). auto.
  - destruct Hin as [E|E]; [inversion E; congruence|]. rewrite (IH Hnd' E). reflexivity.
Qed.

Lemma eligible_with_fold {V} (f : cart_item -> V) (cart : gmap string cart_item)
    (pids : list string) (e : list (string * V)) :
  NoDup (map fst e) ->
  (forall k v, In (k, v) e -> exists it, cart !! k = Some it /\ v = f it) ->
  let r := fold_left (fun e pid =>
             match cart !! pid with
             | Some it => dict_set pid (f it) e
             | None => e
             end) pids e in
  NoDup (map fst r) /\
  (forall k v, In (k, v) r -> exists it, cart !! k = Some it /\ v = f it) /\
  (forall k, In k (map fst e) -> In k (map fst r)) /\
  (forall k, In k pids -> cart !! k <> None -> In k (map fst r)).
Proof.
  revert e; induction pids as [|pid pids IH]; intros e Hnd Hv; simpl.
  - split; [exact Hnd|]. split; [exact Hv|]. split; [auto|intros k []].
  - destruct (cart !! pid) as [it|] eqn:Ep.
    + destruct (IH (dict_set pid (f it) e)) as [R1 [R2 [R3 R4]]].
      * apply dict_set_nodup, Hnd.
      * intros k v Hin. destruct (dict_set_in _ _ _ _ _ Hin) as [E|E];
          [inversion E; subst; eauto|exact (Hv k v E)].
      * split; [exact R1|]. split; [exact R2|]. split.
        -- intros k Hk. apply R3, dict_set_keeps_keys, Hk.
        -- intros k [<-|Hk] Hc; [apply R3, dict_set_has_key|exact (R4 k Hk Hc)].
    + destruct (IH e Hnd Hv) as [R1 [R2 [R3 R4]]].
      split; [exact R1|]. split; [exact R2|]. split; [exact R3|].
      intros k [<-|Hk] Hc; [congruence|exact (R4 k Hk Hc)].
Qed.

(** A product listed again after its first occurrence adds nothing: the
    dict already holds it with the same value. *)
Lemma eligible_with_dup {V} (f : cart_item -> V) (cart : gmap string cart_item)
    (l1 l2 : list string) (p : string) :
  In p l1 -> eligible_with f cart (l1 ++ p :: l2) = eligible_with f cart (l1 ++ l2).
Proof.
  intros Hp. unfold eligible_with. rewrite !fold_left_app. cbn [fold_left].
  f_equal.
  destruct (eligible_with_fold f cart l1 [] ltac:(constructor) ltac:(intros k v [])) as
    [R1 [R2 [_ R4]]].
  destruct (cart !! p) as [it|] eqn:Ep; [|reflexivity].
  apply dict_set_present; [exact R1|].
  assert (Hk := R4 p Hp ltac:(congruence)).
  apply in_map_iff in Hk as [[k v] [Ek Hin]]. simpl in Ek. subst k.
  destruct (R2 p v Hin) as [it' [E' ->]]. rewrite Ep in E'. inversion E'; subst.
  exact Hin.
Qed.

(** Listing a buy or get product a second time changes nothing in the
    buy-X-get-Y evaluation: the eligible products are dicts keyed by
    product id (unlike the product-wise loop, which counts repeats). *)
Theorem bxgy_repeated_products_ignored (cart : gmap string cart_item) (d : bxgy)
    (l1 l2 : list string) (p : string) :
  In p l1 ->
  bxgy_discount cart (with_buy_products d (l1 ++ p :: l2)) =
    bxgy_discount cart (with_buy_products d (l1 ++ l2)) /\
  bxgy_discount cart (with_get_products d (l1 ++ p :: l2)) =
    bxgy_discount cart (with_get_products d (l1 ++ l2)).
Proof.
  intros Hp. unfold bxgy_discount, with_buy_products, with_get_products.
  cbn [bx_buy_products bx_get_products bx_buy_quantity bx_get_quantity
       bx_discount_percentage bx_repetition_limit].
  split.
  - change (eligible_buy cart (l1 ++ p :: l2)) with (eligible_with ci_quantity cart (l1 ++ p :: l2)).
    rewrite (eligible_with_dup _ _ _ _ _ Hp). reflexivity.
  - change (eligible_get cart (l1 ++ p :: l2)) with
      (eligible_with (fun it => {| g_quantity := ci_quantity it; g_price := ci_price it |})
         cart (l1 ++ p :: l2)).
    rewrite (eligible_with_dup _ _ _ _ _ Hp). reflexivity.
Qed.

Lemma bxgy_repeated_products_ignored_witness :
  In "p123"%string ["p123"; "p456"]%string /\
  bxgy_discount test_cart (with_buy_products (buy2get1_details (PyVal 1))
                             (["p123"; "p456"]%string ++ "p123"%string :: [])) =
    bxgy_discount test_cart (with_buy_products (buy2get1_details (PyVal 1))
                               (["p123"; "p456"]%string ++ [])) /\
  bxgy_discount test_cart (with_get_products (buy2get1_details (PyVal 1))
                             (["p123"; "p456"]%string ++ "p123"%string :: [])) =
    bxgy_discount test_cart (with_get_products (buy2get1_details (PyVal 1))
                               (["p123"; "p456"]%string ++ [])).
Proof.
  assert (H : In "p123"%string ["p123"; "p456"]%string) by (left; reflexivity).
  split; [exact H|].
  exact (bxgy_repeated_products_ignored test_cart (buy2get1_details (PyVal 1))
           ["p123"; "p456"]%string [] "p123" H).
Defined.

Lemma eligible_with_nonempty {V} (f : cart_item -> V) (cart : gmap string cart_item)
    (pids : list string) (p : string) :
  In p pids -> cart !! p <> None -> eligible_with f cart pids <> [].
Proof.
  intros Hp Hc.
  destruct (eligible_with_fold f cart pids [] ltac:(constructor) ltac:(intros k v [])) as
    [_ [_ [_ R4]]].
  intros E. unfold eligible_with in E. specialize (R4 p Hp Hc). rewrite E in R4.
  exact R4.
Qed.

(** A buy-X-get-Y coupon with [buy_quantity = 0] raises
    [ZeroDivisionError] as soon as the cart holds one of its buy products
    and one of its get products: [apply_coupon] fails with it once the
    coupon passes the checks, and so does [get_applicable_coupons] for any
    query result holding the coupon. *)
Theorem bxgy_zero_buy_quantity_fails (cust : customer) (c : coupon) (d : bxgy)
    (now : Z) (pb pg : string) (l1 l2 : list coupon) :
  coupon_details c = Bxgy d -> bx_buy_quantity d = 0 ->
  In pb (bx_buy_products d) -> cart cust !! pb <> None ->
  In pg (bx_get_products d) -> cart cust !! pg <> None ->
  bxgy_discount (cart cust) d = Err ZeroDivisionError /\
  (passes_checks cust c now -> apply_coupon cust c now = Err ZeroDivisionError) /\
  exists e, list_applicable cust (l1 ++ c :: l2) = Err e.
Proof.
  intros Hd Hq Hb Hbc Hg Hgc.
  assert (Hz : bxgy_discount (cart cust) d = Err ZeroDivisionError).
  { unfold bxgy_discount.
    assert (Eb := eligible_with_nonempty ci_quantity (cart cust) _ pb Hb Hbc).
    assert (Eg := eligible_with_nonempty
                    (fun it => {| g_quantity := ci_quantity it; g_price := ci_price it |})
                    (cart cust) _ pg Hg Hgc).
    change (eligible_with ci_quantity (cart cust) (bx_buy_products d)) with
      (eligible_buy (cart cust) (bx_buy_products d)) in Eb.
    change (eligible_with _ (cart cust) (bx_get_products d)) with
      (eligible_get (cart cust) (bx_get_products d)) in Eg.
    destruct (eligible_buy (cart cust) (bx_buy_products d)); [congruence|].
    destruct (eligible_get (cart cust) (bx_get_products d)); [congruence|].
    rewrite Hq. reflexivity. }
  assert (He : cart_is_empty (cart cust) = false).
  { unfold cart_is_empty. apply bool_decide_eq_false. intros E.
    rewrite E, lookup_empty in Hbc. congruence. }
  split; [exact Hz|]. split.
  - intros [Ha [Hf [Hv Ht]]]. unfold apply_coupon.
    rewrite Ha, Ht, He. simpl.
    destruct (Z.ltb_spec now (valid_from c)); [lia|]. simpl.
    destruct (valid_until c) as [| |v] eqn:E2; simpl.
    + unfold apply_discount. rewrite Hd, Hz. reflexivity.
    + unfold apply_discount. rewrite Hd, Hz. reflexivity.
    + destruct (Z.ltb_spec v now); [specialize (Hv v eq_refl); lia|]. simpl.
      unfold apply_discount. rewrite Hd, Hz. reflexivity.
  - unfold list_applicable. rewrite He. rewrite fold_left_app. cbn [fold_left].
    destruct (fold_left (list_step (cart_total (cart cust)) (cart cust)) l1 (Ok [])) as
      [acc|e] eqn:E.
    + exists ZeroDivisionError.
      replace (list_step (cart_total (cart cust)) (cart cust) (Ok acc) c)
        with (@Err (list (coupon * Q)) ZeroDivisionError)
        by (unfold list_step; simpl; rewrite Hd, Hz; reflexivity).
      rewrite list_fold_err. reflexivity.
    + exists e.
      replace (list_step (cart_total (cart cust)) (cart cust) (Err e) c)
        with (@Err (list (coupon * Q)) e) by reflexivity.
      rewrite list_fold_err. reflexivity.
Qed.

Lemma bxgy_zero_buy_quantity_fails_witness :
  (coupon_details buy0get1 = Bxgy buy0get1_details /\ bx_buy_quantity buy0get1_details = 0 /\
   In "p123"%string (bx_buy_products buy0get1_details) /\
   cart test_customer !! "p123"%string <> None /\
   In "p789"%string (bx_get_products buy0get1_details) /\
   cart test_customer !! "p789"%string <> None) /\
  bxgy_discount (cart test_customer) buy0get1_details = Err ZeroDivisionError /\
  (passes_checks test_customer buy0get1 10 ->
   apply_coupon test_customer buy0get1 10 = Err ZeroDivisionError) /\
  exists e, list_applicable test_customer ([cart20] ++ buy0get1 :: [prod15]) = Err e.
Proof.
  assert (H1 : coupon_details buy0get1 = Bxgy buy0get1_details) by reflexivity.
  assert (H2 : bx_buy_quantity buy0get1_details = 0) by reflexivity.
  assert (H3 : In "p123"%string (bx_buy_products buy0get1_details)) by (left; reflexivity).
  assert (H4 : cart test_customer !! "p123"%string <> None) by (vm_compute; discriminate).
  assert (H5 : In "p789"%string (bx_get_products buy0get1_details)) by (left; reflexivity).
  assert (H6 : cart test_customer !! "p789"%string <> None) by (vm_compute; discriminate).
  split; [exact (conj H1 (conj H2 (conj H3 (conj H4 (conj H5 H6)))))|].
  exact (bxgy_zero_buy_quantity_fails test_customer buy0get1 buy0get1_details 10
           "p123" "p789" [cart20] [prod15] H1 H2 H3 H4 H5 H6).
Defined.

(** ** Product-wise: lines that do not qualify *)

(** Taking out of the cart (as [remove_from_cart] does) a product the
    coupon does not list, or one below its [min_quantity], leaves the
    product-wise discount unchanged ([min_quantity] a number or absent). *)
Theorem product_wise_ignores_nonqualifying_line (cart : gmap string cart_item)
    (d : product_based) (p : string) :
  pb_min_quantity d <> PyNone ->
  (~ In p (pb_product_ids d) \/
   exists it, cart !! p = Some it /\ ci_quantity it < min_quantity_of d) ->
  exists x x', product_wise_discount cart d = Ok x /\
               product_wise_discount (delete p cart) d = Ok x' /\ Qeq x x'.
Proof.
  intros Hn Hp.
  destruct (product_wise_discount_spec cart d Hn) as [x [Hx Hxq]].
  destruct (product_wise_discount_spec (delete p cart) d Hn) as [x' [Hx' Hxq']].
  exists x, x'. split; [exact Hx|]. split; [exact Hx'|].
  rewrite Hxq, Hxq'. unfold per_product_spec.
  assert (Hc : forall pid, In pid (pb_product_ids d) ->
            per_product_contribution cart d pid =
            per_product_contribution (delete p cart) d pid).
  { intros pid Hin. unfold per_product_contribution.
    destruct (String.eqb_spec pid p) as [->|Hne].
    - rewrite lookup_delete_eq.
      destruct Hp as [Hp|[it [Ei Hlt]]]; [contradiction|].
      rewrite Ei. destruct (Z.leb_spec (min_quantity_of d) (ci_quantity it)); [lia|].
      reflexivity.
    - rewrite lookup_delete_ne by congruence. reflexivity. }
  revert Hc. generalize (pb_product_ids d) as l.
  induction l as [|pid l IH]; intros Hc; simpl; [reflexivity|].
  rewrite (Hc pid (or_introl eq_refl)), IH; [reflexivity|].
  intros q Hq. apply Hc. right. exact Hq.
Qed.

Lemma product_wise_ignores_nonqualifying_line_witness :
  (pb_min_quantity prod15_details <> PyNone /\
   (~ In "p456"%string (pb_product_ids prod15_details) \/
    exists it, test_cart !! "p456"%string = Some it /\
               ci_quantity it < min_quantity_of prod15_details)) /\
  exists x x', product_wise_discount test_cart prod15_details = Ok x /\
               product_wise_discount (delete "p456"%string test_cart) prod15_details = Ok x' /\
               Qeq x x'.
Proof.
  assert (H1 : pb_min_quantity prod15_details <> PyNone) by discriminate.
  assert (H2 : ~ In "p456"%string (pb_product_ids prod15_details) \/
               exists it, test_cart !! "p456"%string = Some it /\
                          ci_quantity it < min_quantity_of prod15_details).
  { right. exists (mk_item "p456" 1 30). split; [reflexivity|unfold min_quantity_of; simpl; lia]. }
  split; [exact (conj H1 H2)|].
  exact (product_wise_ignores_nonqualifying_line test_cart prod15_details "p456" H1 H2).
Defined.
